(** * where-was-i: the filtering and visit-segmentation pipeline of
    [where_was_i/lib.py], embedded and verified.

    A pandas [DataFrame] is a list of rows (a record per stage of the
    pipeline), a boolean [Series] a list of booleans in row order, and a
    Python exception the [Err] branch of [result].  float64 values
    (coordinates, distances, radii) are idealised by the real numbers [R]:
    the theorems about them are statements of real arithmetic. *)

From Stdlib Require Import ZArith List Bool String Ascii Lia Permutation.
From Stdlib Require Import Reals Lra.
Import ListNotations.

Open Scope Z_scope.

(** ** Exceptions and the error monad *)

Inductive exn : Type :=
| ValueError            (* date parsing, astype(int) on bad text, a scalar set on a frame with no rows *)
| OutOfBoundsDatetime   (* instant outside the range of a nanosecond Timestamp *)
| TypeError             (* reduce() of an empty list, date_range of a dict *)
| IndexError            (* cfg["worktimes"][i] past the end *)
| AttributeError.       (* df.<column> for a column the frame does not have *)

Inductive result (A : Type) : Type :=
| Ok (a : A)
| Err (e : exn).
Arguments Ok {A} a.
Arguments Err {A} e.

Definition bind {A B : Type} (m : result A) (k : A -> result B) : result B :=
  match m with
  | Ok a => k a
  | Err e => Err e
  end.

Notation "x <- m ;; k" := (bind m (fun x => k))
  (at level 61, m at next level, right associativity).

(** [[f(x) for x in l]] where [f] may raise: the first exception wins. *)
Fixpoint mapM {A B : Type} (f : A -> result B) (l : list A) : result (list B) :=
  match l with
  | [] => Ok []
  | x :: l' => y <- f x ;; ys <- mapM f l' ;; Ok (y :: ys)
  end.

(** ** Text: the integer literals and zero-padded fields the code parses and prints *)

Module Text.

Definition digit_val (c : ascii) : option Z :=
  let n := Z.of_nat (nat_of_ascii c) in
  if (48 <=? n) && (n <=? 57) then Some (n - 48) else None.

Fixpoint parse_digits (s : string) (acc : Z) : option Z :=
  match s with
  | EmptyString => Some acc
  | String c s' =>
      match digit_val c with
      | Some d => parse_digits s' (10 * acc + d)
      | None => None
      end
  end.

Definition parse_nat (s : string) : option Z :=
  match s with
  | EmptyString => None
  | _ => parse_digits s 0
  end.

(** A decimal integer literal with an optional sign, as [int(...)] reads
    the digit [strftime("%w")] prints. *)
Definition parse_int (s : string) : option Z :=
  match s with
  | String "-"%char s' => option_map Z.opp (parse_nat s')
  | String "+"%char s' => parse_nat s'
  | _ => parse_nat s
  end.

Definition digit_char (d : Z) : ascii := ascii_of_nat (48 + Z.to_nat (d mod 10)).

(** ["%02d"] and ["%04d"] *)
Definition pad2 (n : Z) : string :=
  String (digit_char (n / 10)) (String (digit_char n) EmptyString).

Definition pad4 (n : Z) : string :=
  String (digit_char (n / 1000)) (String (digit_char (n / 100)) (pad2 n)).

End Text.

(** ** Calendar: timezone-aware instants and the proleptic Gregorian calendar
    that pandas formats them with *)

Module Calendar.
Import Text.

Definition ms_per_day : Z := 86400000.

(** Day number (days since 1970-01-01) to (year, month, day). *)
Definition civil_from_days (z : Z) : Z * Z * Z :=
  let z := z + 719468 in
  let era := z / 146097 in
  let doe := z - era * 146097 in
  let yoe := (doe - doe / 1460 + doe / 36524 - doe / 146096) / 365 in
  let y := yoe + era * 400 in
  let doy := doe - (365 * yoe + yoe / 4 - yoe / 100) in
  let mp := (5 * doy + 2) / 153 in
  let d := doy - (153 * mp + 2) / 5 + 1 in
  let m := if mp <? 10 then mp + 3 else mp - 9 in
  (if m <=? 2 then y + 1 else y, m, d).

(** (year, month, day) to day number. *)
Definition days_from_civil (y m d : Z) : Z :=
  let y := if m <=? 2 then y - 1 else y in
  let era := y / 400 in
  let yoe := y - era * 400 in
  let doy := (153 * (if 2 <? m then m - 3 else m + 9) + 2) / 5 + d - 1 in
  let doe := yoe * 365 + yoe / 4 - yoe / 100 + doy in
  era * 146097 + doe - 719468.

(** A timezone-aware [Timestamp]: the UTC instant in milliseconds since the
    epoch and the UTC offset in force at that instant in its zone. *)
Record Timestamp : Type := mkTimestamp {
  utc_ms : Z;
  utcoffset_ms : Z
}.

Definition local_ms (t : Timestamp) : Z := utc_ms t + utcoffset_ms t.
Definition local_day (t : Timestamp) : Z := local_ms t / ms_per_day.

(** [.dt.year] *)
Definition year_of (t : Timestamp) : Z :=
  let '(y, _, _) := civil_from_days (local_day t) in y.

(** [strftime("%Y-%m-%d")] of a day number *)
Definition format_date (day : Z) : string :=
  let '(y, m, d) := civil_from_days day in
  (pad4 y ++ "-" ++ pad2 m ++ "-" ++ pad2 d)%string.

(** [strftime("%w")]: 0 is Sunday; 1970-01-01 was a Thursday. *)
Definition format_weekday (day : Z) : string :=
  String (digit_char ((day + 4) mod 7)) EmptyString.

(** [strftime("%H:%M")] *)
Definition format_daytime (t : Timestamp) : string :=
  let ms := local_ms t mod ms_per_day in
  (pad2 (ms / 3600000) ++ ":" ++ pad2 (ms mod 3600000 / 60000))%string.

(** The instants a nanosecond-resolution [Timestamp] can hold
    (1677-09-21 .. 2262-04-11), in milliseconds. *)
Definition max_timestamp_ms : Z := 9223372036854.

Definition in_bounds (ms : Z) : bool :=
  (- max_timestamp_ms <=? ms) && (ms <=? max_timestamp_ms).

(** [pd.to_datetime(n, unit='ms')] *)
Definition to_datetime_ms (ms : Z) : result Z :=
  if in_bounds ms then Ok ms else Err OutOfBoundsDatetime.

Definition ymd_eqb (a b : Z * Z * Z) : bool :=
  let '(y1, m1, d1) := a in
  let '(y2, m2, d2) := b in
  (y1 =? y2) && (m1 =? m2) && (d1 =? d2).

(** The date strings of the configuration, in the form the documentation
    of [vacation_days] gives, zero-padded ["YYYY-MM-DD"], read as
    [pd.date_range] reads its [start] and [end]: to the day number.  A day
    that the calendar does not have (it does not survive the round trip
    through the day number) is a parse error.  The other spellings of a
    date that pandas also reads are outside the model: what is proved of a
    date is proved of the dates this function accepts. *)
Definition parse_date (s : string) : result Z :=
  match parse_nat (substring 0 4 s), parse_nat (substring 5 2 s),
        parse_nat (substring 8 2 s) with
  | Some y, Some m, Some d =>
      if (String.length s =? 10)%nat
         && String.eqb (substring 4 1 s) "-" && String.eqb (substring 7 1 s) "-"
      then
        let day := days_from_civil y m d in
        if negb (ymd_eqb (civil_from_days day) (y, m, d)) then Err ValueError
        else if in_bounds (day * ms_per_day) then Ok day
        else Err OutOfBoundsDatetime
      else Err ValueError
  | _, _, _ => Err ValueError
  end.

End Calendar.

(** ** haversine *)

Module Geo.
Local Open Scope R_scope.

(** [np.radians] *)
Definition radians (deg : R) : R := deg * (PI / 180).

(** The argument of [np.sqrt] in [haversine], on angles in radians. *)
Definition hav_arg (lat1 lon1 lat2 lon2 : R) : R :=
  (sin ((lat2 - lat1) / 2)) ^ 2
  + cos lat1 * cos lat2 * (sin ((lon2 - lon1) / 2)) ^ 2.

(** [haversine(lat1, lon1, lat2, lon2, to_radians, earth_radius)] *)
Definition haversine_with (to_radians : bool) (earth_radius : R)
    (lat1 lon1 lat2 lon2 : R) : R :=
  let conv := if to_radians then radians else (fun x => x) in
  let a := hav_arg (conv lat1) (conv lon1) (conv lat2) (conv lon2) in
  earth_radius * 2 * asin (sqrt a) * 1000.

(** The call with the default arguments [to_radians=True],
    [earth_radius=6371]. *)
Definition haversine : R -> R -> R -> R -> R := haversine_with true 6371.

End Geo.

(** ** The data frames of the pipeline *)

Module Frame.
Import Calendar.

(** A decimal digit. *)
Inductive digit : Type := D0 | D1 | D2 | D3 | D4 | D5 | D6 | D7 | D8 | D9.

Definition digit_to_Z (d : digit) : Z :=
  match d with
  | D0 => 0 | D1 => 1 | D2 => 2 | D3 => 3 | D4 => 4
  | D5 => 5 | D6 => 6 | D7 => 7 | D8 => 8 | D9 => 9
  end.

(** [timestampMs] as the export has it: a number, or a string of decimal
    digits, held as its first digit and the digits after it.  Every value
    of the type is a cell that [pd.to_numeric] reads as a whole number; the
    empty string, the other spellings it reads (signs, fractions,
    exponents, blanks) and text it refuses are outside the model. *)
Inductive json_num : Type :=
| JInt (z : Z)
| JStr (first : digit) (rest : list digit).

(** A record of the location history.  The columns [activity], [altitude]
    and [heading], which [clean_lhdf] drops unread, are left out. *)
Record RawRow : Type := mkRaw {
  timestampMs : json_num;
  latitudeE7 : Z;
  longitudeE7 : Z;
  accuracy : Z
}.

(** After [filter_year]: the column [time] is added. *)
Record TimedRow : Type := mkTimed {
  raw : RawRow;
  time : Timestamp
}.

(** After [clean_lhdf]: [date], [weekday], [daytime], [lat], [lng]. *)
Record Point : Type := mkPoint {
  timed : TimedRow;
  date : string;
  weekday : string;
  daytime : string;
  lat : R;
  lng : R
}.

(** After [assign_areas].  An object cell is [None] when it holds [None] or
    NaN; [distTuple] is the pair (distance, tag or [None]) built by the
    lambda. *)
Record Located : Type := mkLocated {
  point : Point;
  in_area : bool;
  distTuple : option (R * option string);
  dist : option R;
  area : option string
}.

(** The frame [assign_areas] returns.  [in_area] is always a column of it;
    [distTuple], [dist] and [area] are created by the first pass of the
    loop over the areas, and [area_cols] records whether they exist. *)
Record AreaFrame : Type := mkAreaFrame {
  area_cols : bool;
  rows : list Located
}.

(** After [visit_no]. *)
Record Visited : Type := mkVisited {
  located : Located;
  visitNo : Z
}.

(** *** The configuration, as [yaml.safe_load] hands it over *)

Inductive VacEntry : Type :=
| VacDate (d : string)                            (* "YYYY-MM-DD" *)
| VacDict (from : option string) (to : option string).  (* a dict and its keys *)

Record Area : Type := mkArea {
  tag : string;
  a_lat : R;
  a_lng : R;
  radius : R
}.

Record Config : Type := mkConfig {
  vacation : list VacEntry;
  worktimes : list string;
  workdays : list Z;
  bank_holidays_state : string;
  bank_holidays_province : string;
  areas : list Area
}.

(** *** Series operations *)

(** [s.shift()]: every cell moves one row down, the first becomes NaN. *)
Definition shift {A : Type} (s : list (option A)) : list (option A) :=
  match s with
  | [] => []
  | _ => None :: removelast s
  end.

(** Elementwise binary operation of two series over the same index. *)
Definition zip_with {A B C : Type} (f : A -> B -> C) (s : list A) (t : list B)
    : list C :=
  map (fun '(x, y) => f x y) (combine s t).

(** [==] and [!=] on object cells: with a null on either side [==] is
    false and [!=] is true. *)
Definition obj_eq (x y : option string) : bool :=
  match x, y with
  | Some a, Some b => String.eqb a b
  | _, _ => false
  end.

Definition obj_ne (x y : option string) : bool := negb (obj_eq x y).

(** [s.isin(values)] *)
Definition isin_str (values : list string) (x : string) : bool :=
  existsb (String.eqb x) values.

Definition isin_int (values : list Z) (x : Z) : bool :=
  existsb (Z.eqb x) values.

(** [s.between(left, right)], both ends included, on strings. *)
Definition between (left right x : string) : bool :=
  String.leb left x && String.leb x right.

(** [.astype(int)] and [.cumsum()] *)
Definition as_int (b : bool) : Z := if b then 1 else 0.

Fixpoint cumsum_from (acc : Z) (s : list Z) : list Z :=
  match s with
  | [] => []
  | x :: s' => (acc + x) :: cumsum_from (acc + x) s'
  end.

Definition cumsum (s : list Z) : list Z := cumsum_from 0 s.

(** [i & j] on boolean series over the same index *)
Definition series_and (i j : list bool) : list bool := zip_with andb i j.

(** [df[mask]] for a boolean series over the index of [df] *)
Definition boolean_index {A : Type} (df : list A) (mask : list bool) : list A :=
  map fst (filter snd (combine df mask)).

(** [functools.reduce(f, l)] without an initial value *)
Definition reduce {A : Type} (f : A -> A -> A) (l : list A) : result A :=
  match l with
  | [] => Err TypeError
  | x :: l' => Ok (fold_left f l' x)
  end.

(** [l[i]] *)
Definition index {A : Type} (l : list A) (i : nat) : result A :=
  match nth_error l i with
  | Some x => Ok x
  | None => Err IndexError
  end.

Definition of_option {A : Type} (e : exn) (o : option A) : result A :=
  match o with
  | Some x => Ok x
  | None => Err e
  end.

End Frame.

(** ** where_was_i/lib.py *)

Module Lib.
Import Text Calendar Geo Frame.

Section Collaborators.

(** The tz database entry the code names: the UTC offset, in milliseconds,
    that Europe/Berlin observes at a UTC instant. *)
Variable Europe_Berlin : Z -> Z.

(** The [holidays] package: the official holidays (day numbers) of a state
    and province in a year; [getattr] fails for a state it does not know. *)
Variable holidays : string -> string -> Z -> result (list Z).

(** [pd.to_numeric] on one cell *)
Definition to_numeric (x : json_num) : result Z :=
  match x with
  | JInt z => Ok z
  | JStr first rest =>
      Ok (fold_left (fun acc d => 10 * acc + digit_to_Z d) rest (digit_to_Z first))
  end.

(** [tz_localize('UTC').tz_convert('Europe/Berlin')] *)
Definition to_berlin (ms : Z) : Timestamp :=
  mkTimestamp ms (Europe_Berlin ms).

Definition filter_year (df : list RawRow) (year : Z) : result (list TimedRow) :=
  nums <- mapM (fun r => to_numeric (timestampMs r)) df ;;
  instants <- mapM to_datetime_ms nums ;;
  let df := zip_with (fun r ms => mkTimed r (to_berlin ms)) df instants in
  Ok (boolean_index df (map (fun r => year_of (time r) =? year) df)).

(** The columns [clean_lhdf] computes, on one row. *)
Definition clean_row (r : TimedRow) : Point :=
  let t := time r in
  mkPoint r (format_date (local_day t)) (format_weekday (local_day t))
          (format_daytime t)
          (IZR (latitudeE7 (raw r)) / 10000000)%R
          (IZR (longitudeE7 (raw r)) / 10000000)%R.

Definition clean_lhdf (df : list TimedRow) : list Point := map clean_row df.

Definition year_mask (df : list TimedRow) (year : Z) : list bool :=
  map (fun r => year_of (time r) =? year) df.

(** [pd.date_range(start=start, end=end)]: one day after the other from
    [start] to [end], both included; nothing when [end] is before [start]. *)
Definition date_range (start stop : Z) : list Z :=
  map (fun i => start + Z.of_nat i) (seq 0 (Z.to_nat (stop - start + 1))).

(** The body of the loop of [vacation_days]: the dates one entry adds. *)
Definition vacation_entry_days (vac : VacEntry) : result (list string) :=
  bounds <- match vac with
            | VacDict (Some start) (Some stop) => Ok (start, stop)
            | VacDict (Some start) None => Ok (start, start)
            | VacDict None _ => Err TypeError   (* date_range(start=<dict>) *)
            | VacDate d => Ok (d, d)
            end ;;
  start <- parse_date (fst bounds) ;;
  stop <- parse_date (snd bounds) ;;
  Ok (map format_date (date_range start stop)).

Definition vacation_days (cfg : Config) : result (list string) :=
  days <- mapM vacation_entry_days (vacation cfg) ;;
  Ok (List.concat days).

Definition vacation_mask (df : list Point) (cfg : Config) : result (list bool) :=
  vacation <- vacation_days cfg ;;
  Ok (map (fun r => negb (isin_str vacation (date r))) df).

Definition worktime_mask (df : list Point) (cfg : Config) : result (list bool) :=
  left <- index (worktimes cfg) 0 ;;
  right <- index (worktimes cfg) 1 ;;
  Ok (map (fun r => between left right (daytime r)) df).

Definition workdays_mask (df : list Point) (cfg : Config) : result (list bool) :=
  days <- mapM (fun r => of_option ValueError (parse_int (weekday r))) df ;;
  Ok (map (isin_int (workdays cfg)) days).

Definition bank_holidays (cfg : Config) (year : Z) : result (list string) :=
  days <- holidays (bank_holidays_state cfg) (bank_holidays_province cfg) year ;;
  Ok (map format_date days).

Definition bank_holiday_mask (df : list Point) (cfg : Config) (year : Z)
    : result (list bool) :=
  hol <- bank_holidays cfg year ;;
  Ok (map (fun r => negb (isin_str hol (date r))) df).

Definition apply_masks {A : Type} (df : list A) (masks : list (list bool))
    : result (list A) :=
  mask <- reduce series_and masks ;;
  Ok (boolean_index df mask).

(** [y < areas[area_idx]['radius']] *)
Definition Rltb (x y : R) : bool := if Rlt_dec x y then true else false.

(** One pass of the loop of [assign_areas], on one row: the rows with
    [in_area == False] get a fresh [distTuple], then [dist], [area] and
    [in_area] are recomputed from [distTuple] for every row.  Indexing a
    cell that holds no tuple raises.  A pass whose selection
    [df.loc[mask, :]] is empty is taken to assign to no row. *)
Definition area_pass (a : Area) (r : Located) : result Located :=
  let p := point r in
  let distTuple :=
    if negb (in_area r) then
      let y := haversine (lat p) (lng p) (a_lat a) (a_lng a) in
      Some (y, if Rltb y (radius a) then Some (tag a) else None)
    else distTuple r in
  x <- of_option TypeError distTuple ;;
  Ok (mkLocated p
        (match snd x with Some _ => true | None => false end)
        distTuple (Some (fst x)) (snd x)).

(** [df.loc[:, "in_area"] = False] raises ValueError on a frame with no
    rows (a scalar cannot be set on a frame with no index); on a frame
    with rows the loop over the areas follows. *)
Definition assign_areas (df : list Point) (cfg : Config) : result AreaFrame :=
  match df with
  | [] => Err ValueError
  | _ :: _ =>
      let df := mkAreaFrame false (map (fun p => mkLocated p false None None None) df) in
      fold_left
        (fun acc a =>
           df <- acc ;;
           rows <- mapM (area_pass a) (rows df) ;;
           Ok (mkAreaFrame true rows))
        (areas cfg) (Ok df)
  end.

(** [pd.Timedelta("3h")], in milliseconds *)
Definition three_hours : Z := 3 * 3600000.

(** [df.time - df.time.shift() > pd.Timedelta(timedelta)]: false on NaT. *)
Definition gap_exceeds (timedelta : Z) (t prev : option Z) : bool :=
  match t, prev with
  | Some t, Some prev => timedelta <? t - prev
  | _, _ => false
  end.

Definition visit_no (df : AreaFrame) (timedelta : Z) : result (list Visited) :=
  let df' := filter in_area (rows df) in
  if area_cols df then
    let area_s := map area df' in
    let date_s := map (fun r => Some (date (point r))) df' in
    let time_s := map (fun r => Some (utc_ms (time (timed (point r))))) df' in
    let area_change := map as_int (zip_with obj_ne area_s (shift area_s)) in
    let revisit_same_area :=
      map as_int
        (series_and
           (series_and (zip_with (gap_exceeds timedelta) time_s (shift time_s))
                       (zip_with obj_eq area_s (shift area_s)))
           (zip_with obj_eq date_s (shift date_s))) in
    let date_change_in_same_area :=
      series_and (zip_with obj_ne date_s (shift date_s))
                 (zip_with obj_eq area_s area_s) in
    let visitNo :=
      cumsum (zip_with Z.add (zip_with Z.add area_change revisit_same_area)
                       (map as_int date_change_in_same_area)) in
    Ok (zip_with mkVisited df' visitNo)
  else Err AttributeError.

(** [process_lh] of streamlit_app.py: the pipeline. *)
Definition process_lh (df : list RawRow) (cfg : Config) (year : Z)
    : result (list Visited) :=
  df <- filter_year df year ;;
  let df := clean_lhdf df in
  m1 <- vacation_mask df cfg ;;
  m2 <- worktime_mask df cfg ;;
  m3 <- bank_holiday_mask df cfg year ;;
  m4 <- workdays_mask df cfg ;;
  df <- apply_masks df [m1; m2; m3; m4] ;;
  df <- assign_areas df cfg ;;
  visit_no df three_hours.

End Collaborators.

End Lib.

(** ** The vocabulary of the theorems *)

Module Spec.
Import Calendar Geo Frame Lib.

(** A series paired with itself one row earlier, [prev] standing before
    the first row. *)
Fixpoint lagged {A C : Type} (f : A -> A -> C) (prev : A) (s : list A) : list C :=
  match s with
  | [] => []
  | x :: s' => f x prev :: lagged f x s'
  end.

Definition l_date (r : Located) : option string := Some (date (point r)).
Definition l_time (r : Located) : option Z := Some (utc_ms (time (timed (point r)))).

(** What [visit_no] adds to the running count at row [r], the previous
    row having area [pa], date [pd] and time [pt] (nulls before the
    first row). *)
Definition transitions (timedelta : Z) (pa pd : option string) (pt : option Z)
    (r : Located) : Z :=
  as_int (obj_ne (area r) pa)
  + as_int (gap_exceeds timedelta (l_time r) pt && obj_eq (area r) pa
            && obj_eq (l_date r) pd)
  + as_int (obj_ne (l_date r) pd && obj_eq (area r) (area r)).

(** [visit_no] as one ordered scan that carries the previous row. *)
Fixpoint numbering (timedelta : Z) (pa pd : option string) (pt : option Z)
    (acc : Z) (df : list Located) : list Z :=
  match df with
  | [] => []
  | r :: df' =>
      let n := acc + transitions timedelta pa pd pt r in
      n :: numbering timedelta (area r) (l_date r) (l_time r) n df'
  end.

(** The point lies inside the circle of the area. *)
Definition within (p : Point) (a : Area) : bool :=
  Rltb (haversine (lat p) (lng p) (a_lat a) (a_lng a)) (radius a).

Definition dist_to (p : Point) (a : Area) : R :=
  haversine (lat p) (lng p) (a_lat a) (a_lng a).

(** The row [assign_areas] ends with for point [p], in closed form: the
    first area of the list that holds [p] decides; with none, the row keeps
    the distance to the area of the last pass. *)
Definition located_by (areas : list Area) (p : Point) : Located :=
  match find (within p) areas with
  | Some a =>
      mkLocated p true (Some (dist_to p a, Some (tag a))) (Some (dist_to p a))
                (Some (tag a))
  | None =>
      match rev areas with
      | [] => mkLocated p false None None None
      | a :: _ => mkLocated p false (Some (dist_to p a, None)) (Some (dist_to p a)) None
      end
  end.

Definition frame_by (areas : list Area) (df : list Point) : AreaFrame :=
  mkAreaFrame (match areas with [] => false | _ => true end)
              (map (located_by areas) df).

(** The four criteria of the filter on one point. *)
Definition passes_all (vacation : list string) (left right : string)
    (hol : list string) (days : list Z) (r : Point) : bool :=
  negb (isin_str vacation (date r))
  && between left right (daytime r)
  && negb (isin_str hol (date r))
  && match Text.parse_int (weekday r) with
     | Some d => isin_int days d
     | None => false
     end.

(** The minute of the local day an instant falls in, 0 to 1439. *)
Definition minute_of_day (t : Timestamp) : Z :=
  local_ms t mod ms_per_day / 60000.

(** The weekday number of a day number: 0 is Sunday. *)
Definition weekday_no (day : Z) : Z := (day + 4) mod 7.

(** ["HH:MM"] *)
Definition hhmm (h m : Z) : string :=
  (Text.pad2 h ++ ":" ++ Text.pad2 m)%string.

(** The first and last day an entry of the vacation list names, as it
    spells them. *)
Definition entry_bounds (vac : VacEntry) : option (string * string) :=
  match vac with
  | VacDate d => Some (d, d)
  | VacDict (Some f) None => Some (f, f)
  | VacDict (Some f) (Some t) => Some (f, t)
  | VacDict None _ => None
  end.

Definition is_digit (c : ascii) : bool :=
  match Text.digit_val c with
  | Some _ => true
  | None => false
  end.

(** The string has the form zero-padded ["YYYY-MM-DD"]: ten characters,
    digits but for the two dashes. *)
Definition iso_date (s : string) : bool :=
  match s with
  | String y1 (String y2 (String y3 (String y4 (String dash1
      (String m1 (String m2 (String dash2 (String d1 (String d2 EmptyString))))))))) =>
      is_digit y1 && is_digit y2 && is_digit y3 && is_digit y4
      && Ascii.eqb dash1 "-" && is_digit m1 && is_digit m2
      && Ascii.eqb dash2 "-" && is_digit d1 && is_digit d2
  | _ => false
  end.

End Spec.

(** ** Sample inputs *)

Module Sample.
Import Calendar Geo Frame Lib.

(** Europe/Berlin in winter: CET, one hour ahead of UTC. *)
Definition cet : Z -> Z := fun _ => 3600000.

Definition no_holidays : string -> string -> Z -> result (list Z) :=
  fun _ _ _ => Ok [].

(** The latitude, in degrees, of the point [d] metres due north of (0, 0). *)
Definition degrees_north (d : R) : R := (d / 6371000 * (180 / PI))%R.

Definition hour : Z := 3600000.
Definition minute : Z := 60000.

(** 2023-01-02, a Monday, at 00:00 UTC. *)
Definition jan2 : Z := 19359 * ms_per_day.

Definition raw_at (ms : Z) : RawRow := mkRaw (JInt ms) 0 0 10.

(** The cleaned row of a record taken at (0, 0) on 2023-01-02 at [h]:[m]
    UTC, that is at [h+1]:[m] in Berlin. *)
Definition point_at (h m : Z) : Point :=
  let ms := jan2 + h * hour + m * minute in
  clean_row (mkTimed (raw_at ms) (mkTimestamp ms (cet ms))).

(** The row [assign_areas] makes of a point it puts into area [tag] at
    distance [d]. *)
Definition visit_row (tag : string) (d : R) (p : Point) : Located :=
  mkLocated p true (Some (d, Some tag)) (Some d) (Some tag).

Definition home_6h_apart : AreaFrame :=
  mkAreaFrame true
    [visit_row "Home" 10 (point_at 8 0); visit_row "Home" 10 (point_at 14 0)].

Definition home_1h_gaps : AreaFrame :=
  mkAreaFrame true
    [visit_row "Home" 10 (point_at 8 0); visit_row "Home" 10 (point_at 9 0);
     visit_row "Home" 10 (point_at 10 0)].

Definition base_cfg (areas : list Area) : Config :=
  mkConfig [] ["09:00"; "18:00"]%string [1; 2; 3; 4; 5] "DE" "BY" areas.

Definition origin : Point := point_at 10 0.

(** Two overlapping areas around the origin: A is 100 m away and 500 m
    wide, B is 50 m away and 1000 m wide. *)
Definition area_A : Area := mkArea "A" (degrees_north 100) 0 500.
Definition area_B : Area := mkArea "B" (degrees_north 50) 0 1000.

(** An area the origin is outside of: 100 m away, 50 m wide. *)
Definition area_far : Area := mkArea "Far" (degrees_north 100) 0 50.

(** Another one: 300 m away, 100 m wide. *)
Definition area_farther : Area := mkArea "Farther" (degrees_north 300) 0 100.

(** The office, 40 m from four points of one working day. *)
Definition office : Area := mkArea "Office" (degrees_north 40) 0 200.

Definition office_raw : list RawRow :=
  [raw_at (jan2 + 8 * hour); raw_at (jan2 + 9 * hour); raw_at (jan2 + 10 * hour);
   raw_at (jan2 + 11 * hour)].

Definition office_points : list Point :=
  [point_at 8 0; point_at 9 0; point_at 10 0; point_at 11 0].

(** Four points on the boundaries of the working hours 09:00 to 18:00. *)
Definition boundary_points : list Point :=
  [point_at 8 0; point_at 17 0; point_at 7 59; point_at 17 1].

(** A vacation entry whose end is before its start. *)
Definition reversed_vacation : Config :=
  mkConfig [VacDict (Some "2023-01-03") (Some "2023-01-01")]%string
           ["09:00"; "18:00"]%string [1; 2; 3; 4; 5] "DE" "BY" [].

(** 2022-12-31 23:30 UTC, which is 2023-01-01 00:30 in Berlin. *)
Definition new_year_eve : RawRow :=
  mkRaw (JStr D1 [D6; D7; D2; D5; D2; D9; D4; D0; D0; D0; D0; D0])
        525200000 134000000 10.

End Sample.

(** ** Properties of haversine *)

Module GeoFacts.
Import Geo Sample.
Local Open Scope R_scope.

Lemma hav_arg_sym (lat1 lon1 lat2 lon2 : R) :
  hav_arg lat1 lon1 lat2 lon2 = hav_arg lat2 lon2 lat1 lon1.
Proof.
  unfold hav_arg.
  replace ((lat1 - lat2) / 2) with (- ((lat2 - lat1) / 2)) by lra.
  replace ((lon1 - lon2) / 2) with (- ((lon2 - lon1) / 2)) by lra.
  rewrite !sin_neg. ring.
Qed.

Lemma hav_arg_refl (lat lon : R) : hav_arg lat lon lat lon = 0.
Proof.
  unfold hav_arg.
  replace ((lat - lat) / 2) with 0 by lra.
  replace ((lon - lon) / 2) with 0 by lra.
  rewrite sin_0. ring.
Qed.

Lemma half_angle_sin (x : R) : (sin (x / 2)) ^ 2 = (1 - cos x) / 2.
Proof.
  replace x with (2 * (x / 2)) at 2 by lra.
  rewrite cos_2a_sin. lra.
Qed.

(** [np.sqrt] and [np.arcsin] are only defined on [[0, +oo)] and [[-1, 1]]:
    the value they are applied to never leaves [[0, 1]]. *)
Lemma hav_arg_unit (lat1 lon1 lat2 lon2 : R) :
  0 <= hav_arg lat1 lon1 lat2 lon2 <= 1.
Proof.
  unfold hav_arg.
  rewrite !half_angle_sin, cos_minus.
  pose proof (sin2_cos2 lat1) as H1. pose proof (sin2_cos2 lat2) as H2.
  pose proof (COS_bound (lon2 - lon1)) as [Hk1 Hk2].
  unfold Rsqr in H1, H2.
  set (s1 := sin lat1) in *. set (c1 := cos lat1) in *.
  set (s2 := sin lat2) in *. set (c2 := cos lat2) in *.
  set (k := cos (lon2 - lon1)) in *.
  pose proof (Rle_0_sqr (s1 - s2)) as Q1. pose proof (Rle_0_sqr (c1 - c2)) as Q2.
  pose proof (Rle_0_sqr (s1 + s2)) as Q3. pose proof (Rle_0_sqr (c1 + c2)) as Q4.
  unfold Rsqr in Q1, Q2, Q3, Q4.
  assert (Hm : -1 <= s1 * s2 + c1 * c2 <= 1) by (split; lra).
  assert (Hp : -1 <= s1 * s2 - c1 * c2 <= 1) by (split; lra).
  clear Q1 Q2 Q3 Q4 H1 H2.
  set (u := s1 * s2) in *. set (v := c1 * c2) in *.
  replace (c2 * c1 + s2 * s1) with (v + u) by (unfold u, v; ring).
  split; nra.
Qed.

Lemma sqrt_hav_arg_unit (lat1 lon1 lat2 lon2 : R) :
  0 <= sqrt (hav_arg lat1 lon1 lat2 lon2) <= 1.
Proof.
  destruct (hav_arg_unit lat1 lon1 lat2 lon2) as [H0 H1].
  split; [apply sqrt_pos|].
  rewrite <- sqrt_1. apply sqrt_le_1_alt. exact H1.
Qed.

Lemma atan_nonneg (y : R) : 0 <= y -> 0 <= atan y.
Proof.
  intros [Hy | <-].
  - rewrite <- atan_0. apply Rlt_le, atan_increasing, Hy.
  - rewrite atan_0. lra.
Qed.

Lemma asin_nonneg (x : R) : 0 <= x -> 0 <= asin x.
Proof.
  intros Hx. unfold asin.
  destruct (Rle_dec x (-1)) as [H | _]; [lra|].
  destruct (Rle_dec 1 x) as [_ | H1].
  - pose proof PI_RGT_0. lra.
  - apply atan_nonneg.
    assert (0 < sqrt (1 - x²)) by (apply sqrt_lt_R0; unfold Rsqr; nra).
    apply Rmult_le_pos; [exact Hx | apply Rlt_le, Rinv_0_lt_compat; assumption].
Qed.

Lemma haversine_sym (lat1 lon1 lat2 lon2 : R) :
  haversine lat1 lon1 lat2 lon2 = haversine lat2 lon2 lat1 lon1.
Proof.
  unfold haversine, haversine_with. cbv zeta.
  rewrite (hav_arg_sym (radians lat1)). reflexivity.
Qed.

Lemma haversine_refl (lat lon : R) : haversine lat lon lat lon = 0.
Proof.
  unfold haversine, haversine_with. cbv zeta.
  rewrite hav_arg_refl, sqrt_0, asin_0. ring.
Qed.

Lemma haversine_nonneg (lat1 lon1 lat2 lon2 : R) :
  0 <= haversine lat1 lon1 lat2 lon2.
Proof.
  unfold haversine, haversine_with. cbv zeta.
  pose proof (asin_nonneg _ (sqrt_pos
    (hav_arg (radians lat1) (radians lon1) (radians lat2) (radians lon2)))).
  nra.
Qed.

(** C9: the haversine distance is symmetric in its two coordinate pairs,
    zero from a point to itself and never negative (float64 read as real
    numbers). *)
Theorem haversine_sym_zero_nonneg :
  forall lat1 lon1 lat2 lon2 : R,
    haversine lat1 lon1 lat2 lon2 = haversine lat2 lon2 lat1 lon1 /\
    haversine lat1 lon1 lat1 lon1 = 0 /\
    0 <= haversine lat1 lon1 lat2 lon2.
Proof.
  intros lat1 lon1 lat2 lon2.
  split; [apply haversine_sym|].
  split; [apply haversine_refl | apply haversine_nonneg].
Qed.

Lemma haversine_meridian (d : R) :
  0 <= d <= 6371000 -> haversine 0 0 (degrees_north d) 0 = d.
Proof.
  intros [Hd0 Hd1].
  pose proof PI_RGT_0 as Hpi. pose proof PI2_1 as Hpi2.
  unfold haversine, haversine_with, degrees_north. cbv zeta.
  assert (Hr0 : radians 0 = 0) by (unfold radians; ring).
  assert (Hrx : radians (d / 6371000 * (180 / PI)) = d / 6371000)
    by (unfold radians; field; lra).
  rewrite Hr0, Hrx. unfold hav_arg.
  replace ((0 - 0) / 2) with 0 by lra.
  replace ((d / 6371000 - 0) / 2) with (d / 12742000) by lra.
  rewrite sin_0.
  replace (sin (d / 12742000) ^ 2 + cos 0 * cos (d / 6371000) * 0 ^ 2)
    with (Rsqr (sin (d / 12742000))) by (unfold Rsqr; ring).
  assert (Hx : 0 <= d / 12742000 <= 1 / 2) by (split; lra).
  rewrite sqrt_Rsqr by (apply sin_ge_0; lra).
  rewrite asin_sin by lra.
  field.
Qed.

End GeoFacts.



(** ** assign_areas in closed form *)

Module AreaFacts.
Import Calendar Geo Frame Lib Spec.

Lemma mapM_map_ok {A B C : Type} (f : B -> result C) (h : A -> B) (g : A -> C) l :
  (forall x, f (h x) = Ok (g x)) -> mapM f (map h l) = Ok (map g l).
Proof.
  intros H. induction l as [| x l IH]; [reflexivity|].
  cbn [map mapM]. rewrite H, IH. reflexivity.
Qed.

Lemma find_snoc {A : Type} (f : A -> bool) (l : list A) (a : A) :
  find f (l ++ [a]) =
  match find f l with
  | Some b => Some b
  | None => if f a then Some a else None
  end.
Proof.
  induction l as [| b l IH]; cbn [app find].
  - destruct (f a); reflexivity.
  - destruct (f b); [reflexivity | exact IH].
Qed.

Lemma Rltb_true (x y : R) : Rltb x y = true <-> (x < y)%R.
Proof. unfold Rltb. destruct (Rlt_dec x y); split; intros; try easy. Qed.

Lemma Rltb_false (x y : R) : Rltb x y = false <-> ~ (x < y)%R.
Proof. unfold Rltb. destruct (Rlt_dec x y); split; intros; try easy. Qed.

(** One more pass: the row for [done] becomes the row for [done ++ [a]]. *)
Lemma area_pass_located_by (done : list Area) (a : Area) (p : Point) :
  area_pass a (located_by done p) = Ok (located_by (done ++ [a]) p).
Proof.
  unfold located_by at 2. rewrite find_snoc, rev_unit.
  unfold located_by, area_pass.
  destruct (find (within p) done) as [b |]; [reflexivity|].
  unfold within, dist_to.
  destruct (rev done); cbn; destruct (Rltb _ _); reflexivity.
Qed.

Lemma frame_by_snoc (done : list Area) (a : Area) (df : list Point) :
  (rows <- mapM (area_pass a) (rows (frame_by done df)) ;;
   Ok (mkAreaFrame true rows))
  = Ok (frame_by (done ++ [a]) df).
Proof.
  unfold frame_by at 1. cbn [rows].
  rewrite (mapM_map_ok _ _ (located_by (done ++ [a])))
    by (intros; apply area_pass_located_by).
  unfold frame_by. destruct done; reflexivity.
Qed.

Lemma assign_areas_loop (rest : list Area) (df : list Point) : forall done,
  fold_left
    (fun acc a =>
       df <- acc ;;
       rows <- mapM (area_pass a) (rows df) ;;
       Ok (mkAreaFrame true rows))
    rest (Ok (frame_by done df))
  = Ok (frame_by (done ++ rest) df).
Proof.
  induction rest as [| a rest IH]; intros done; cbn [fold_left].
  - rewrite app_nil_r. reflexivity.
  - cbn [bind]. rewrite frame_by_snoc, IH, <- app_assoc. reflexivity.
Qed.

(** On a frame with rows [assign_areas] does not raise, and tags every
    point on its own. *)
Lemma assign_areas_closed (df : list Point) (cfg : Config) :
  df <> [] -> assign_areas df cfg = Ok (frame_by (areas cfg) df).
Proof.
  intros Hne. unfold assign_areas. destruct df as [| p df]; [contradiction|].
  change (mkAreaFrame false
            (map (fun p => mkLocated p false None None None) (p :: df)))
    with (frame_by [] (p :: df)).
  apply assign_areas_loop.
Qed.

Lemma assign_areas_no_rows (cfg : Config) : assign_areas [] cfg = Err ValueError.
Proof. reflexivity. Qed.

Lemma nth_error_nonempty {A : Type} (l : list A) (i : nat) (x : A) :
  nth_error l i = Some x -> l <> [].
Proof. intros H ->. destruct i; discriminate. Qed.

Lemma find_first {A : Type} (f : A -> bool) (pre post : list A) (a : A) :
  (forall b, In b pre -> f b = false) -> f a = true ->
  find f (pre ++ a :: post) = Some a.
Proof.
  intros Hpre Ha. induction pre as [| b pre IH]; cbn [app find].
  - rewrite Ha. reflexivity.
  - rewrite (Hpre b (or_introl eq_refl)). apply IH.
    intros c Hc. apply Hpre. right. exact Hc.
Qed.

Lemma find_nowhere {A : Type} (f : A -> bool) (l : list A) :
  (forall b, In b l -> f b = false) -> find f l = None.
Proof.
  intros H. induction l as [| b l IH]; [reflexivity|].
  cbn [find]. rewrite (H b (or_introl eq_refl)). apply IH.
  intros c Hc. apply H. right. exact Hc.
Qed.

Lemma located_by_in_area (areas : list Area) (p : Point) :
  in_area (located_by areas p) = true ->
  exists t, area (located_by areas p) = Some t.
Proof.
  unfold located_by. destruct (find (within p) areas) as [a |].
  - intros _. exists (tag a). reflexivity.
  - destruct (rev areas); cbn; discriminate.
Qed.

Lemma point_at_lat (h m : Z) : lat (Sample.point_at h m) = 0%R.
Proof. unfold Sample.point_at, clean_row, Sample.raw_at. cbn. lra. Qed.

Lemma point_at_lng (h m : Z) : lng (Sample.point_at h m) = 0%R.
Proof. unfold Sample.point_at, clean_row, Sample.raw_at. cbn. lra. Qed.

Ltac at_origin := first [apply point_at_lat | apply point_at_lng | reflexivity].

Lemma dist_to_north (p : Point) (a : Area) (d : R) :
  lat p = 0%R -> lng p = 0%R -> a_lat a = Sample.degrees_north d -> a_lng a = 0%R ->
  (0 <= d <= 6371000)%R -> dist_to p a = d.
Proof.
  intros Hlat Hlng Ha Hb Hd. unfold dist_to. rewrite Hlat, Hlng, Ha, Hb.
  apply GeoFacts.haversine_meridian, Hd.
Qed.

(** C4: [assign_areas] gives a point the first area, in the order of the
    configuration, whose haversine distance to it is strictly below the
    area's radius, with that distance, and no later area changes it; so
    with A (radius 500) at distance 100 listed before B (radius 1000) at
    distance 50 the point is assigned to A. *)
Theorem assign_areas_first_match :
  (forall (df : list Point) (cfg : Config) (pre post : list Area) (a : Area)
          (i : nat) (p : Point),
      areas cfg = pre ++ a :: post ->
      (forall b, In b pre -> ~ (dist_to p b < radius b)%R) ->
      (dist_to p a < radius a)%R ->
      nth_error df i = Some p ->
      exists frame r,
        assign_areas df cfg = Ok frame /\ nth_error (rows frame) i = Some r /\
        point r = p /\ area r = Some (tag a) /\ dist r = Some (dist_to p a) /\
        in_area r = true)
  /\
  (forall (cfg : Config) (p : Point) (A B : Area),
      areas cfg = [A; B] ->
      dist_to p A = 100%R -> radius A = 500%R ->
      dist_to p B = 50%R -> radius B = 1000%R ->
      exists r,
        assign_areas [p] cfg = Ok (mkAreaFrame true [r]) /\
        point r = p /\ area r = Some (tag A) /\ dist r = Some 100%R /\
        in_area r = true).
Proof.
  split.
  - intros df cfg pre post a i p Hcfg Hpre Ha Hp.
    exists (frame_by (areas cfg) df), (located_by (areas cfg) p).
    split; [apply assign_areas_closed, (nth_error_nonempty _ _ _ Hp)|].
    split; [cbn [frame_by rows]; apply map_nth_error, Hp|].
    unfold located_by. rewrite Hcfg.
    rewrite (find_first (within p) pre post a).
    + repeat split.
    + intros b Hb. apply Rltb_false, Hpre, Hb.
    + apply Rltb_true, Ha.
  - intros cfg p A B Hcfg HdA HrA HdB HrB.
    exists (located_by [A; B] p).
    rewrite assign_areas_closed by discriminate. rewrite Hcfg.
    split; [reflexivity|].
    unfold located_by. cbn [find].
    assert (HA : within p A = true)
      by (apply Rltb_true; fold (dist_to p A); rewrite HdA, HrA; lra).
    rewrite HA, HdA. repeat split.
Qed.

Lemma assign_areas_first_match_witness :
  exists r,
    assign_areas [Sample.origin] (Sample.base_cfg [Sample.area_A; Sample.area_B])
      = Ok (mkAreaFrame true [r]) /\
    point r = Sample.origin /\ area r = Some "A"%string /\ dist r = Some 100%R /\
    in_area r = true.
Proof.
  apply (proj2 assign_areas_first_match
           (Sample.base_cfg [Sample.area_A; Sample.area_B]) Sample.origin
           Sample.area_A Sample.area_B).
  - reflexivity.
  - apply dist_to_north; try at_origin. lra.
  - reflexivity.
  - apply dist_to_north; try at_origin. lra.
  - reflexivity.
Defined.

(** C10: with at least one configured area, a point that no area holds
    leaves [assign_areas] with [dist] present and equal to its haversine
    distance to the last area of the list, [area] null and [in_area]
    false; and no row of the result has [dist] missing. *)
Theorem assign_areas_unmatched_dist :
  forall (df : list Point) (cfg : Config) (pre : list Area) (a : Area)
         (i : nat) (p : Point),
    areas cfg = pre ++ [a] ->
    nth_error df i = Some p ->
    (forall b, In b (areas cfg) -> ~ (dist_to p b < radius b)%R) ->
    exists frame r,
      assign_areas df cfg = Ok frame /\ nth_error (rows frame) i = Some r /\
      point r = p /\ dist r = Some (dist_to p a) /\ area r = None /\
      in_area r = false /\
      (forall r', In r' (rows frame) -> dist r' <> None).
Proof.
  intros df cfg pre a i p Hcfg Hp Hout.
  exists (frame_by (areas cfg) df), (located_by (areas cfg) p).
  split; [apply assign_areas_closed, (nth_error_nonempty _ _ _ Hp)|].
  split; [cbn [frame_by rows]; apply map_nth_error, Hp|].
  assert (Hrow : located_by (areas cfg) p =
                 mkLocated p false (Some (dist_to p a, None)) (Some (dist_to p a)) None).
  { unfold located_by. rewrite find_nowhere.
    - rewrite Hcfg, rev_unit. reflexivity.
    - intros b Hb. apply Rltb_false, Hout, Hb. }
  rewrite Hrow. repeat split.
  intros r' Hr'. cbn [frame_by rows] in Hr'.
  apply in_map_iff in Hr' as [q [<- _]].
  unfold located_by. rewrite Hcfg, rev_unit.
  destruct (find _ _); discriminate.
Qed.

Lemma assign_areas_unmatched_dist_witness :
  exists frame r,
    assign_areas [Sample.origin]
      (Sample.base_cfg [Sample.area_farther; Sample.area_far]) = Ok frame /\
    nth_error (rows frame) 0 = Some r /\ point r = Sample.origin /\
    dist r = Some (dist_to Sample.origin Sample.area_far) /\ area r = None /\
    in_area r = false /\
    (forall r', In r' (rows frame) -> dist r' <> None).
Proof.
  apply (assign_areas_unmatched_dist [Sample.origin]
           (Sample.base_cfg [Sample.area_farther; Sample.area_far])
           [Sample.area_farther] Sample.area_far 0 Sample.origin).
  - reflexivity.
  - reflexivity.
  - intros b [<- | [<- | []]].
    + rewrite (dist_to_north Sample.origin Sample.area_farther 300);
        try at_origin; cbn; lra.
    + rewrite (dist_to_north Sample.origin Sample.area_far 100);
        try at_origin; cbn; lra.
Defined.

End AreaFacts.

(** ** Series and the scan of visit_no *)

Module VisitFacts.
Import Calendar Geo Frame Lib Spec.

Lemma zip_with_cons {A B C : Type} (f : A -> B -> C) x y s t :
  zip_with f (x :: s) (y :: t) = f x y :: zip_with f s t.
Proof. reflexivity. Qed.

Lemma zip_with_length {A B C : Type} (f : A -> B -> C) s t :
  List.length s = List.length t -> List.length (zip_with f s t) = List.length s.
Proof.
  intros H. unfold zip_with. rewrite length_map, length_combine. lia.
Qed.

Lemma zip_with_removelast {A C : Type} (f : A -> A -> C) (s : list A) :
  forall x, zip_with f s (removelast (x :: s)) = lagged f x s.
Proof.
  induction s as [| y s IH]; intros x; [reflexivity|].
  change (removelast (x :: y :: s)) with (x :: removelast (y :: s)).
  rewrite zip_with_cons, IH. reflexivity.
Qed.

Lemma zip_with_shift {A C : Type} (f : option A -> option A -> C) s :
  zip_with f s (shift s) = lagged f None s.
Proof.
  destruct s as [| x s]; [reflexivity|].
  unfold shift. rewrite zip_with_cons, zip_with_removelast. reflexivity.
Qed.

Lemma numbering_length td pa pd pt acc df :
  List.length (numbering td pa pd pt acc df) = List.length df.
Proof.
  revert pa pd pt acc. induction df as [| r df IH]; intros; simpl; [|rewrite IH]; reflexivity.
Qed.

(** The column-wise computation of [visit_no] is the scan. *)
Lemma columns_numbering td (df : list Located) : forall pa pd pt acc,
  cumsum_from acc
    (zip_with Z.add
       (zip_with Z.add
          (map as_int (lagged obj_ne pa (map area df)))
          (map as_int
             (series_and
                (series_and (lagged (gap_exceeds td) pt (map l_time df))
                            (lagged obj_eq pa (map area df)))
                (lagged obj_eq pd (map l_date df)))))
       (map as_int
          (series_and (lagged obj_ne pd (map l_date df))
                      (zip_with obj_eq (map area df) (map area df)))))
  = numbering td pa pd pt acc df.
Proof.
  induction df as [| r df IH]; intros pa pd pt acc; [reflexivity|].
  cbn [map lagged numbering]. unfold series_and in *.
  rewrite !zip_with_cons. cbn [map]. rewrite !zip_with_cons. cbn [cumsum_from].
  rewrite IH. reflexivity.
Qed.

Lemma visit_no_scan (df : AreaFrame) (td : Z) :
  visit_no df td =
  if area_cols df then
    Ok (zip_with mkVisited (filter in_area (rows df))
          (numbering td None None None 0 (filter in_area (rows df))))
  else Err AttributeError.
Proof.
  unfold visit_no. destruct (area_cols df); [|reflexivity].
  rewrite !zip_with_shift.
  change (map (fun r => Some (date (point r)))) with (map l_date).
  change (map (fun r => Some (utc_ms (time (timed (point r)))))) with (map l_time).
  unfold cumsum. rewrite columns_numbering. reflexivity.
Qed.

Lemma nth_error_zip_with {A B C : Type} (f : A -> B -> C) (s : list A) :
  forall (t : list B) (i : nat),
    nth_error (zip_with f s t) i =
    match nth_error s i, nth_error t i with
    | Some x, Some y => Some (f x y)
    | _, _ => None
    end.
Proof.
  induction s as [| x s IH]; intros [| y t] [| i]; try reflexivity.
  - cbn. destruct (nth_error s i); reflexivity.
  - rewrite zip_with_cons. cbn [nth_error]. apply IH.
Qed.

(** Along the scan, a row counts on from the number of the row before it. *)
Lemma numbering_adjacent td (df : list Located) :
  forall i pa pd pt acc r1 r2 n1 n2,
    nth_error df i = Some r1 -> nth_error df (S i) = Some r2 ->
    nth_error (numbering td pa pd pt acc df) i = Some n1 ->
    nth_error (numbering td pa pd pt acc df) (S i) = Some n2 ->
    n2 = n1 + transitions td (area r1) (l_date r1) (l_time r1) r2.
Proof.
  induction df as [| r df IH]; intros i pa pd pt acc r1 r2 n1 n2 H1 H2 N1 N2.
  - destruct i; discriminate.
  - destruct i as [| i].
    + destruct df as [| r' df]; [discriminate|].
      cbn in H1, H2, N1, N2.
      injection H1 as <-. injection H2 as <-. injection N1 as <-. injection N2 as <-.
      reflexivity.
    + cbn [numbering nth_error] in *. eapply IH; eassumption.
Qed.

Lemma transitions_same_area_date td (a : string) (r1 r2 : Located) :
  area r1 = Some a -> area r2 = Some a ->
  date (point r1) = date (point r2) ->
  transitions td (area r1) (l_date r1) (l_time r1) r2
  = as_int (td <? utc_ms (time (timed (point r2))) - utc_ms (time (timed (point r1)))).
Proof.
  intros H1 H2 Hd. unfold transitions, l_date, l_time, obj_ne, gap_exceeds.
  rewrite H1, H2, Hd. cbn [obj_eq]. rewrite !String.eqb_refl.
  cbn [negb as_int andb]. rewrite !andb_true_r. lia.
Qed.

Lemma transitions_first td (a : string) (r : Located) :
  area r = Some a -> transitions td None None None r = 2.
Proof.
  intros H. unfold transitions, obj_ne, gap_exceeds, l_date, l_time.
  rewrite H. cbn [obj_eq]. rewrite String.eqb_refl. reflexivity.
Qed.

Lemma located_by_north (a : Area) (d : R) (p : Point) :
  lat p = 0%R -> lng p = 0%R -> a_lat a = Sample.degrees_north d -> a_lng a = 0%R ->
  (0 <= d <= 6371000)%R -> (d < radius a)%R ->
  located_by [a] p = Sample.visit_row (tag a) d p.
Proof.
  intros Hlat Hlng Ha Hb Hd Hr. unfold located_by. cbn [find].
  assert (Hin : within p a = true).
  { apply AreaFacts.Rltb_true. change (dist_to p a < radius a)%R.
    rewrite (AreaFacts.dist_to_north p a d); assumption. }
  rewrite Hin, (AreaFacts.dist_to_north p a d) by assumption. reflexivity.
Qed.

(** C1, as the code has it: the first in-area point of a frame that
    [assign_areas] produced is numbered 2, not 1, by [visit_no], because on
    the first row both the area comparison and the date comparison against
    the shifted (null) column fire; run through the whole pipeline, four
    points of one working day inside the single area "Office" are all
    numbered 2. *)
Theorem visit_no_first_is_two :
  (forall (pts : list Point) (cfg : Config) (td : Z) (frame : AreaFrame)
          (v : Visited) (vs : list Visited),
      assign_areas pts cfg = Ok frame ->
      visit_no frame td = Ok (v :: vs) ->
      visitNo v = 2)
  /\
  (exists out,
      process_lh Sample.cet Sample.no_holidays Sample.office_raw
                 (Sample.base_cfg [Sample.office]) 2023 = Ok out /\
      map point (map located out) = Sample.office_points /\
      map (fun v => (area (located v), in_area (located v), visitNo v)) out
      = [(Some "Office"%string, true, 2); (Some "Office"%string, true, 2);
         (Some "Office"%string, true, 2); (Some "Office"%string, true, 2)]).
Proof.
  split.
  - intros pts cfg td frame v vs Hassign Hvisit.
    assert (Hne : pts <> [])
      by (intros ->; rewrite AreaFacts.assign_areas_no_rows in Hassign; discriminate).
    rewrite (AreaFacts.assign_areas_closed pts cfg Hne) in Hassign.
    injection Hassign as <-.
    rewrite visit_no_scan in Hvisit.
    destruct (area_cols (frame_by (areas cfg) pts)); [|discriminate].
    remember (filter in_area (rows (frame_by (areas cfg) pts))) as df eqn:Hdf.
    destruct df as [| r df]; [discriminate|].
    cbn [numbering] in Hvisit. rewrite zip_with_cons in Hvisit.
    injection Hvisit as <- _. cbn [visitNo].
    assert (Hr : In r (filter in_area (rows (frame_by (areas cfg) pts))))
      by (rewrite <- Hdf; left; reflexivity).
    apply filter_In in Hr as [Hr Hin]. cbn [frame_by rows] in Hr.
    apply in_map_iff in Hr as [p [<- _]].
    destruct (AreaFacts.located_by_in_area _ _ Hin) as [t Ht].
    rewrite (transitions_first td t) by exact Ht. reflexivity.
  - unfold process_lh.
    assert (Hyear : exists timed,
               filter_year Sample.cet Sample.office_raw 2023 = Ok timed /\
               clean_lhdf timed = Sample.office_points)
      by (exists (map (fun r => mkTimed r (to_berlin Sample.cet
                                             (match timestampMs r with
                                              | JInt ms => ms
                                              | JStr _ _ => 0
                                              end)))
                      Sample.office_raw);
          split; vm_compute; reflexivity).
    destruct Hyear as [timed [Hyear Hclean]].
    rewrite Hyear. cbn [bind]. cbv zeta. rewrite Hclean.
    assert (H1 : vacation_mask Sample.office_points (Sample.base_cfg [Sample.office])
                 = Ok [true; true; true; true]) by (vm_compute; reflexivity).
    assert (H2 : worktime_mask Sample.office_points (Sample.base_cfg [Sample.office])
                 = Ok [true; true; true; true]) by (vm_compute; reflexivity).
    assert (H3 : bank_holiday_mask Sample.no_holidays Sample.office_points
                   (Sample.base_cfg [Sample.office]) 2023
                 = Ok [true; true; true; true]) by (vm_compute; reflexivity).
    assert (H4 : workdays_mask Sample.office_points (Sample.base_cfg [Sample.office])
                 = Ok [true; true; true; true]) by (vm_compute; reflexivity).
    rewrite H1, H2, H3, H4. cbn [bind].
    change (apply_masks Sample.office_points
              [[true; true; true; true]; [true; true; true; true];
               [true; true; true; true]; [true; true; true; true]])
      with (Ok Sample.office_points).
    cbn [bind].
    rewrite AreaFacts.assign_areas_closed
      by (unfold Sample.office_points; discriminate).
    cbn [bind].
    unfold frame_by, Sample.base_cfg, Sample.office_points. cbn [areas map].
    rewrite !(located_by_north Sample.office 40)
      by (try AreaFacts.at_origin; cbn; lra).
    eexists. split; [rewrite visit_no_scan; reflexivity|].
    split; vm_compute; reflexivity.
Qed.

Lemma visit_no_first_is_two_witness :
  exists v vs,
    visit_no (frame_by [Sample.office] Sample.office_points) three_hours = Ok (v :: vs) /\
    visitNo v = 2.
Proof.
  assert (H : exists out,
             visit_no (frame_by [Sample.office] Sample.office_points) three_hours
             = Ok out /\ List.length out = 4%nat).
  { unfold frame_by, Sample.office_points. cbn [map].
    rewrite !(located_by_north Sample.office 40)
      by (try AreaFacts.at_origin; cbn; lra).
    eexists. split; [rewrite visit_no_scan; reflexivity | reflexivity]. }
  destruct H as [[| v vs] [Hout Hlen]]; [discriminate|].
  exists v, vs. split; [exact Hout|].
  apply (proj1 visit_no_first_is_two Sample.office_points
           (Sample.base_cfg [Sample.office]) three_hours
           (frame_by [Sample.office] Sample.office_points) v vs).
  - apply AreaFacts.assign_areas_closed. unfold Sample.office_points. discriminate.
  - exact Hout.
Defined.

(** C3, as the code has it: with no configured area the two stages never
    yield an empty visit result.  On a frame with rows [assign_areas]
    returns a frame that has the column [in_area] but not [dist] and
    [area], and [visit_no] on that frame raises AttributeError; on a frame
    with no rows [assign_areas] itself raises ValueError. *)
Theorem zero_areas_visit_no_raises :
  forall (df : list Point) (cfg : Config) (td : Z),
    areas cfg = [] ->
    (df <> [] ->
     exists frame,
       assign_areas df cfg = Ok frame /\
       area_cols frame = false /\
       visit_no frame td = Err AttributeError) /\
    (df = [] -> assign_areas df cfg = Err ValueError) /\
    exists e, (frame <- assign_areas df cfg ;; visit_no frame td) = Err e.
Proof.
  intros df cfg td Hcfg.
  assert (Hrows : df <> [] ->
                  exists frame,
                    assign_areas df cfg = Ok frame /\
                    area_cols frame = false /\
                    visit_no frame td = Err AttributeError).
  { intros Hne. exists (frame_by [] df).
    rewrite (AreaFacts.assign_areas_closed df cfg Hne), Hcfg.
    repeat split. }
  split; [exact Hrows|].
  split; [intros ->; apply AreaFacts.assign_areas_no_rows|].
  destruct df as [| p df].
  - exists ValueError. reflexivity.
  - destruct (Hrows ltac:(discriminate)) as [frame [Ha [_ Hv]]].
    exists AttributeError. rewrite Ha. cbn [bind]. exact Hv.
Qed.

Lemma zero_areas_visit_no_raises_witness :
  exists frame,
    assign_areas Sample.office_points (Sample.base_cfg []) = Ok frame /\
    area_cols frame = false /\
    visit_no frame three_hours = Err AttributeError.
Proof.
  apply (proj1 (zero_areas_visit_no_raises Sample.office_points (Sample.base_cfg [])
                  three_hours eq_refl)).
  unfold Sample.office_points. discriminate.
Defined.

(** C5: [visit_no] returns on every frame that has the area columns, and
    of two neighbouring rows of its result (consecutive in-area points, in
    the chronological order the frame is in) with the same area and the
    same date the second has the greater [visitNo] exactly when the time
    between them is more than the threshold; two such points 6 hours apart
    are numbered apart under the 3 hours default, three with gaps of one
    hour share a number. *)
Theorem visit_no_gap_rule :
  (forall (df : AreaFrame) (td : Z),
      area_cols df = true ->
      exists out,
        visit_no df td = Ok out /\
        map located out = filter in_area (rows df) /\
        forall (i : nat) (v1 v2 : Visited) (a : string),
          nth_error out i = Some v1 -> nth_error out (S i) = Some v2 ->
          area (located v1) = Some a -> area (located v2) = Some a ->
          date (point (located v1)) = date (point (located v2)) ->
          (visitNo v1 < visitNo v2 <->
           td < utc_ms (time (timed (point (located v2))))
                - utc_ms (time (timed (point (located v1))))))
  /\
  (exists v1 v2,
      visit_no Sample.home_6h_apart three_hours = Ok [v1; v2] /\
      visitNo v1 < visitNo v2)
  /\
  (exists out n,
      visit_no Sample.home_1h_gaps three_hours = Ok out /\
      map visitNo out = [n; n; n]).
Proof.
  split; [|split].
  - intros df td Hcols.
    set (df' := filter in_area (rows df)).
    exists (zip_with mkVisited df' (numbering td None None None 0 df')).
    split; [rewrite visit_no_scan, Hcols; reflexivity|].
    split.
    + apply nth_error_ext. intros i.
      rewrite nth_error_map, nth_error_zip_with.
      destruct (nth_error df' i) as [r |] eqn:Hr; [|reflexivity].
      destruct (nth_error (numbering td None None None 0 df') i) eqn:Hn;
        [reflexivity|].
      apply nth_error_None in Hn. rewrite numbering_length in Hn.
      apply nth_error_None in Hn. congruence.
    + intros i v1 v2 a H1 H2 A1 A2 Hd.
      rewrite nth_error_zip_with in H1, H2.
      destruct (nth_error df' i) as [r1 |] eqn:R1; [|discriminate].
      destruct (nth_error (numbering td None None None 0 df') i) as [n1 |] eqn:N1;
        [|discriminate].
      destruct (nth_error df' (S i)) as [r2 |] eqn:R2; [|discriminate].
      destruct (nth_error (numbering td None None None 0 df') (S i)) as [n2 |] eqn:N2;
        [|discriminate].
      injection H1 as <-. injection H2 as <-. cbn [located visitNo] in *.
      rewrite (numbering_adjacent td df' i _ _ _ _ r1 r2 n1 n2 R1 R2 N1 N2).
      rewrite (transitions_same_area_date td a r1 r2 A1 A2 Hd).
      destruct (Z.ltb_spec td
                  (utc_ms (time (timed (point r2))) - utc_ms (time (timed (point r1)))));
        cbn [as_int]; lia.
  - eexists. eexists. split; [rewrite visit_no_scan; reflexivity|].
    vm_compute. reflexivity.
  - eexists. exists 2. split; [rewrite visit_no_scan; reflexivity|].
    vm_compute. reflexivity.
Qed.

Lemma visit_no_gap_rule_witness :
  exists out,
    visit_no Sample.home_6h_apart Lib.three_hours = Ok out /\
    map located out = filter in_area (rows Sample.home_6h_apart) /\
    forall (i : nat) (v1 v2 : Visited) (a : string),
      nth_error out i = Some v1 -> nth_error out (S i) = Some v2 ->
      area (located v1) = Some a -> area (located v2) = Some a ->
      date (point (located v1)) = date (point (located v2)) ->
      (visitNo v1 < visitNo v2 <->
       three_hours < utc_ms (time (timed (point (located v2))))
                     - utc_ms (time (timed (point (located v1))))).
Proof.
  apply (proj1 visit_no_gap_rule Sample.home_6h_apart three_hours).
  reflexivity.
Defined.

End VisitFacts.

(** ** vacation_days *)

Module VacationFacts.
Import Calendar Frame Lib.

Lemma date_range_reversed (start stop : Z) : stop < start -> date_range start stop = [].
Proof.
  intros H. unfold date_range.
  replace (Z.to_nat (stop - start + 1)) with 0%nat by lia. reflexivity.
Qed.

Lemma vacation_days_cons (cfg : Config) (vac : VacEntry) (rest : list VacEntry) :
  forall cfg',
    vacation cfg = vac :: rest -> vacation cfg' = rest ->
    vacation_days cfg =
    (d <- vacation_entry_days vac ;; ds <- vacation_days cfg' ;; Ok (d ++ ds)%list).
Proof.
  intros cfg' H H'. unfold vacation_days. rewrite H, H'. cbn [mapM].
  destruct (vacation_entry_days vac) as [d | e]; [|reflexivity]. cbn [bind].
  destruct (mapM vacation_entry_days rest); reflexivity.
Qed.

Lemma mapM_skip_empty (pre post : list VacEntry) (vac : VacEntry) :
  vacation_entry_days vac = Ok [] ->
  (days <- mapM vacation_entry_days (pre ++ vac :: post) ;; Ok (List.concat days))
  = (days <- mapM vacation_entry_days (pre ++ post) ;; Ok (List.concat days)).
Proof.
  intros Hvac. induction pre as [| x pre IH]; cbn [app mapM].
  - rewrite Hvac. cbn [bind].
    destruct (mapM vacation_entry_days post); reflexivity.
  - destruct (vacation_entry_days x) as [d | e]; [|reflexivity]. cbn [bind] in *.
    destruct (mapM vacation_entry_days (pre ++ vac :: post)) as [ds |];
      destruct (mapM vacation_entry_days (pre ++ post)) as [ds' |];
      cbn [bind] in *; try congruence.
    injection IH as IH. cbn [List.concat]. rewrite IH. reflexivity.
Qed.

(** C2, as the code has it: a range whose [to] is before its [from] is no
    error; [pd.date_range] is empty for it, so the entry adds no day and
    [vacation_days] returns what it returns without the entry. *)
Theorem vacation_days_reversed_range_empty :
  forall (cfg cfg' : Config) (pre post : list VacEntry) (f t : string) (df dt : Z),
    vacation cfg = pre ++ VacDict (Some f) (Some t) :: post ->
    vacation cfg' = pre ++ post ->
    parse_date f = Ok df -> parse_date t = Ok dt -> dt < df ->
    vacation_entry_days (VacDict (Some f) (Some t)) = Ok [] /\
    vacation_days cfg = vacation_days cfg'.
Proof.
  intros cfg cfg' pre post f t df dt Hcfg Hcfg' Hf Ht Hlt.
  assert (Hvac : vacation_entry_days (VacDict (Some f) (Some t)) = Ok []).
  { unfold vacation_entry_days. cbn [bind fst snd]. rewrite Hf, Ht. cbn [bind].
    rewrite date_range_reversed by exact Hlt. reflexivity. }
  split; [exact Hvac|].
  unfold vacation_days. rewrite Hcfg, Hcfg'. apply mapM_skip_empty, Hvac.
Qed.

Lemma vacation_days_reversed_range_empty_witness :
  vacation_entry_days (VacDict (Some "2023-01-03"%string) (Some "2023-01-01"%string))
  = Ok [] /\
  vacation_days Sample.reversed_vacation = vacation_days (Sample.base_cfg []).
Proof.
  apply (vacation_days_reversed_range_empty Sample.reversed_vacation
           (Sample.base_cfg []) [] [] "2023-01-03" "2023-01-01" 19360 19358).
  - reflexivity.
  - reflexivity.
  - vm_compute. reflexivity.
  - vm_compute. reflexivity.
  - lia.
Defined.

(** The counterexample to C2 as stated: [to] is two days before [from],
    and [vacation_days] returns the empty list. *)
Lemma vacation_days_reversed_range_no_error :
  exists df dt,
    parse_date "2023-01-03" = Ok df /\ parse_date "2023-01-01" = Ok dt /\ dt < df /\
    vacation_days Sample.reversed_vacation = Ok [] /\
    forall e, vacation_days Sample.reversed_vacation <> Err e.
Proof.
  exists 19360, 19358.
  assert (H : vacation_days Sample.reversed_vacation = Ok [])
    by (vm_compute; reflexivity).
  split; [vm_compute; reflexivity|].
  split; [vm_compute; reflexivity|].
  split; [lia|].
  split; [exact H|].
  intros e. rewrite H. discriminate.
Qed.

(** The expansions the documentation of [vacation_days] describes. *)
Example vacation_days_range :
  vacation_days
    (mkConfig [VacDict (Some "2023-01-01") (Some "2023-01-03"); VacDate "2023-02-05";
               VacDict (Some "2023-12-31") None]%string [] [] "DE" "BY" [])
  = Ok ["2023-01-01"; "2023-01-02"; "2023-01-03"; "2023-02-05"; "2023-12-31"]%string.
Proof. vm_compute. reflexivity. Qed.

End VacationFacts.

(** ** The masks and their intersection *)

Module MaskFacts.
Import Calendar Frame Lib Spec.

Lemma series_and_comm (i j : list bool) : series_and i j = series_and j i.
Proof.
  revert j. induction i as [| x i IH]; intros [| y j]; try reflexivity.
  unfold series_and in *. rewrite !VisitFacts.zip_with_cons, IH, andb_comm.
  reflexivity.
Qed.

Lemma series_and_assoc (i j k : list bool) :
  series_and (series_and i j) k = series_and i (series_and j k).
Proof.
  revert j k. induction i as [| x i IH]; intros [| y j] [| z k]; try reflexivity.
  unfold series_and in *. rewrite !VisitFacts.zip_with_cons, IH, andb_assoc.
  reflexivity.
Qed.

Lemma series_and_idem (i : list bool) : series_and i i = i.
Proof.
  induction i as [| x i IH]; [reflexivity|].
  unfold series_and in *. rewrite VisitFacts.zip_with_cons, IH, andb_diag.
  reflexivity.
Qed.

Lemma series_and_swap (a x y : list bool) :
  series_and (series_and a x) y = series_and (series_and a y) x.
Proof.
  rewrite !series_and_assoc, (series_and_comm x y). reflexivity.
Qed.

Lemma fold_and_perm (l l' : list (list bool)) :
  Permutation l l' ->
  forall a, fold_left series_and l a = fold_left series_and l' a.
Proof.
  induction 1 as [| x l l' _ IH | x y l | l l' l'' _ IH1 _ IH2]; intros a;
    cbn [fold_left].
  - reflexivity.
  - apply IH.
  - rewrite series_and_swap. reflexivity.
  - rewrite IH1. apply IH2.
Qed.

(** A mask that is among the ones still to come may be taken in twice. *)
Lemma fold_and_absorb (l : list (list bool)) (x : list bool) :
  In x l -> forall a, fold_left series_and l (series_and a x) = fold_left series_and l a.
Proof.
  induction l as [| y l IH]; intros Hin a; [destruct Hin|].
  cbn [fold_left]. destruct Hin as [-> | Hin].
  - rewrite series_and_assoc, series_and_idem. reflexivity.
  - rewrite series_and_swap. apply IH, Hin.
Qed.

Lemma reduce_and_perm (l l' : list (list bool)) :
  Permutation l l' -> reduce series_and l = reduce series_and l'.
Proof.
  intros HP. destruct l as [| x l], l' as [| y l'].
  - reflexivity.
  - apply Permutation_nil in HP. discriminate.
  - apply Permutation_sym, Permutation_nil in HP. discriminate.
  - unfold reduce. f_equal.
    assert (Hx : fold_left series_and l x = fold_left series_and (x :: l) x)
      by (cbn [fold_left]; rewrite series_and_idem; reflexivity).
    assert (Hy : fold_left series_and l' y = fold_left series_and (y :: l') y)
      by (cbn [fold_left]; rewrite series_and_idem; reflexivity).
    rewrite Hx, Hy, (fold_and_perm _ _ HP).
    assert (Hin : In x (y :: l'))
      by (apply (Permutation_in x HP); left; reflexivity).
    rewrite <- (fold_and_absorb (y :: l') y (or_introl eq_refl) x).
    rewrite series_and_comm.
    apply (fold_and_absorb (y :: l') x Hin).
Qed.

Lemma series_and_map {A : Type} (f g : A -> bool) (df : list A) :
  series_and (map f df) (map g df) = map (fun r => f r && g r) df.
Proof.
  induction df as [| r df IH]; [reflexivity|].
  cbn [map]. unfold series_and in *. rewrite VisitFacts.zip_with_cons, IH.
  reflexivity.
Qed.

Lemma boolean_index_map {A : Type} (f : A -> bool) (df : list A) :
  boolean_index df (map f df) = filter f df.
Proof.
  unfold boolean_index. induction df as [| r df IH]; [reflexivity|].
  cbn [map combine filter snd]. destruct (f r); cbn [map fst]; rewrite IH; reflexivity.
Qed.

Lemma bind_ok {A B : Type} (m : result A) (k : A -> result B) (b : B) :
  (x <- m ;; k x) = Ok b -> exists a, m = Ok a /\ k a = Ok b.
Proof. destruct m as [a | e]; [exists a; split; trivial | discriminate]. Qed.

Lemma weekdays_parsed (days : list Z) (df : list Point) : forall ws,
  mapM (fun r => of_option ValueError (Text.parse_int (weekday r))) df = Ok ws ->
  map (isin_int days) ws
  = map (fun r => match Text.parse_int (weekday r) with
                  | Some d => isin_int days d
                  | None => false
                  end) df.
Proof.
  induction df as [| r df IH]; intros ws H; cbn [mapM] in H.
  - injection H as <-. reflexivity.
  - apply bind_ok in H as [d [Hd H]]. apply bind_ok in H as [ws' [Hws H]].
    injection H as <-. cbn [map].
    destruct (Text.parse_int (weekday r)); [|discriminate].
    injection Hd as ->. rewrite (IH ws' Hws). reflexivity.
Qed.

(** C7: [worktime_mask] keeps a point exactly when its [daytime] is, as a
    string, at least the start and at most the end of the working hours,
    both ends included; with 09:00 to 18:00 the points at 09:00 and 18:00
    pass and those at 08:59 and 18:01 do not. *)
Theorem worktime_mask_inclusive :
  (forall (df : list Point) (cfg : Config) (left right : string) (rest : list string),
      worktimes cfg = left :: right :: rest ->
      worktime_mask df cfg
      = Ok (map (fun r => String.leb left (daytime r) && String.leb (daytime r) right)
                df))
  /\
  (forall (cfg : Config) (rest : list string),
      worktimes cfg = "09:00"%string :: "18:00"%string :: rest ->
      map daytime Sample.boundary_points = ["09:00"; "18:00"; "08:59"; "18:01"]%string /\
      worktime_mask Sample.boundary_points cfg = Ok [true; true; false; false]).
Proof.
  assert (G : forall df cfg left right rest,
             worktimes cfg = left :: right :: rest ->
             worktime_mask df cfg
             = Ok (map (fun r => String.leb left (daytime r)
                                 && String.leb (daytime r) right) df)).
  { intros df cfg left right rest H. unfold worktime_mask, index.
    rewrite H. reflexivity. }
  split; [exact G|].
  intros cfg rest H. split; [reflexivity|].
  rewrite (G _ _ _ _ _ H). vm_compute. reflexivity.
Qed.

Lemma worktime_mask_inclusive_witness :
  worktime_mask Sample.boundary_points (Sample.base_cfg [])
  = Ok (map (fun r => String.leb "09:00" (daytime r) && String.leb (daytime r) "18:00")
            Sample.boundary_points) /\
  worktime_mask Sample.boundary_points (Sample.base_cfg []) = Ok [true; true; false; false].
Proof.
  split.
  - apply (proj1 worktime_mask_inclusive Sample.boundary_points (Sample.base_cfg [])
             "09:00"%string "18:00"%string []).
    reflexivity.
  - apply (proj2 worktime_mask_inclusive (Sample.base_cfg []) []).
    reflexivity.
Defined.

Section Holidays.

Variable holidays : string -> string -> Z -> result (list Z).

(** The four masks in the order [process_lh] lists them. *)
Lemma four_masks (df : list Point) (cfg : Config) (year : Z)
    (m1 m2 m3 m4 : list bool) :
  vacation_mask df cfg = Ok m1 ->
  worktime_mask df cfg = Ok m2 ->
  bank_holiday_mask holidays df cfg year = Ok m3 ->
  workdays_mask df cfg = Ok m4 ->
  exists vac left right hol,
    vacation_days cfg = Ok vac /\
    index (worktimes cfg) 0 = Ok left /\ index (worktimes cfg) 1 = Ok right /\
    bank_holidays holidays cfg year = Ok hol /\
    apply_masks df [m1; m2; m3; m4]
    = Ok (filter (passes_all vac left right hol (workdays cfg)) df).
Proof.
  intros H1 H2 H3 H4.
  apply bind_ok in H1 as [vac [Hvac H1]]. injection H1 as <-.
  apply bind_ok in H2 as [left [Hl H2]]. apply bind_ok in H2 as [right [Hr H2]].
  injection H2 as <-.
  apply bind_ok in H3 as [hol [Hhol H3]]. injection H3 as <-.
  apply bind_ok in H4 as [ws [Hws H4]]. injection H4 as <-.
  exists vac, left, right, hol. repeat (split; [assumption|]).
  unfold apply_masks, reduce. cbn [fold_left bind].
  rewrite (weekdays_parsed _ _ _ Hws), !series_and_map, boolean_index_map.
  reflexivity.
Qed.

End Holidays.

(** C6: whatever order the vacation, worktime, bank holiday and workday
    masks are handed to [apply_masks] in, the filtered frame is the same,
    and it is the points that pass each of the four criteria on their own
    fields. *)
Theorem apply_masks_order_independent :
  forall (holidays : string -> string -> Z -> result (list Z))
         (df : list Point) (cfg : Config) (year : Z)
         (m1 m2 m3 m4 : list bool) (masks : list (list bool)),
    vacation_mask df cfg = Ok m1 ->
    worktime_mask df cfg = Ok m2 ->
    bank_holiday_mask holidays df cfg year = Ok m3 ->
    workdays_mask df cfg = Ok m4 ->
    Permutation [m1; m2; m3; m4] masks ->
    apply_masks df masks = apply_masks df [m1; m2; m3; m4] /\
    exists vac left right hol,
      vacation_days cfg = Ok vac /\
      index (worktimes cfg) 0 = Ok left /\ index (worktimes cfg) 1 = Ok right /\
      bank_holidays holidays cfg year = Ok hol /\
      apply_masks df masks
      = Ok (filter (passes_all vac left right hol (workdays cfg)) df).
Proof.
  intros holidays df cfg year m1 m2 m3 m4 masks H1 H2 H3 H4 HP.
  assert (E : apply_masks df masks = apply_masks df [m1; m2; m3; m4])
    by (unfold apply_masks; rewrite (reduce_and_perm _ _ HP); reflexivity).
  split; [exact E|]. rewrite E.
  apply (four_masks holidays df cfg year m1 m2 m3 m4 H1 H2 H3 H4).
Qed.

Lemma apply_masks_order_independent_witness :
  apply_masks Sample.boundary_points
    [[true; true; true; true]; [true; true; true; true]; [true; true; false; false];
     [true; true; true; true]]
  = Ok [Sample.point_at 8 0; Sample.point_at 17 0].
Proof.
  destruct (apply_masks_order_independent Sample.no_holidays Sample.boundary_points
              (Sample.base_cfg []) 2023
              [true; true; true; true] [true; true; false; false]
              [true; true; true; true] [true; true; true; true]
              [[true; true; true; true]; [true; true; true; true];
               [true; true; false; false]; [true; true; true; true]])
    as [E _].
  - reflexivity.
  - reflexivity.
  - reflexivity.
  - reflexivity.
  - exact (Permutation_rev [[true; true; true; true]; [true; true; false; false];
                            [true; true; true; true]; [true; true; true; true]]).
  - rewrite E. reflexivity.
Defined.

End MaskFacts.

(** ** filter_year *)

Module YearFacts.
Import Calendar Frame Lib.

Lemma to_datetime_in_bounds (nums : list Z) :
  Forall (fun ms => in_bounds ms = true) nums -> mapM to_datetime_ms nums = Ok nums.
Proof.
  induction 1 as [| ms nums Hms _ IH]; [reflexivity|].
  cbn [mapM]. unfold to_datetime_ms at 1. rewrite Hms. cbn [bind].
  rewrite IH. reflexivity.
Qed.

(** C8: [filter_year] keeps, in order, exactly the rows whose year in
    Europe/Berlin is the requested one: the UTC offset of the zone is added
    to the instant before the year is taken.  A point half an hour before
    the new year 2023 in UTC is in 2023 in Berlin: it is kept for 2023 and
    dropped for 2022. *)
Theorem filter_year_local_year :
  (forall (Europe_Berlin : Z -> Z) (df : list RawRow) (year : Z) (nums : list Z),
      mapM (fun r => to_numeric (timestampMs r)) df = Ok nums ->
      Forall (fun ms => in_bounds ms = true) nums ->
      filter_year Europe_Berlin df year
      = Ok (filter
              (fun r => fst (fst (civil_from_days
                                    ((utc_ms (time r) + utcoffset_ms (time r))
                                     / ms_per_day))) =? year)
              (zip_with (fun r ms => mkTimed r (mkTimestamp ms (Europe_Berlin ms)))
                        df nums)))
  /\
  (year_of (mkTimestamp 1672529400000 0) = 2022 /\
   filter_year Sample.cet [Sample.new_year_eve] 2023
   = Ok [mkTimed Sample.new_year_eve (mkTimestamp 1672529400000 3600000)] /\
   filter_year Sample.cet [Sample.new_year_eve] 2022 = Ok []).
Proof.
  split.
  - intros tz df year nums Hnum Hb. unfold filter_year.
    rewrite Hnum. cbn [bind]. rewrite (to_datetime_in_bounds _ Hb). cbn [bind].
    rewrite MaskFacts.boolean_index_map.
    rewrite (filter_ext _
               (fun r => fst (fst (civil_from_days
                                     ((utc_ms (time r) + utcoffset_ms (time r))
                                      / ms_per_day))) =? year)).
    + reflexivity.
    + intros r. unfold year_of, local_day, local_ms.
      destruct (civil_from_days _) as [[y m] d]. reflexivity.
  - repeat split; vm_compute; reflexivity.
Qed.

Lemma filter_year_local_year_witness :
  filter_year Sample.cet [Sample.new_year_eve] 2023
  = Ok (filter
          (fun r => fst (fst (civil_from_days
                                ((utc_ms (time r) + utcoffset_ms (time r))
                                 / ms_per_day))) =? 2023)
          (zip_with (fun r ms => mkTimed r (mkTimestamp ms (Sample.cet ms)))
                    [Sample.new_year_eve] [1672529400000])).
Proof.
  apply (proj1 filter_year_local_year Sample.cet [Sample.new_year_eve] 2023
           [1672529400000]).
  - reflexivity.
  - repeat constructor.
Defined.

End YearFacts.

(** ** More on haversine *)

Module GeoMore.
Import Geo.
Local Open Scope R_scope.

(** No two points are further apart than half the circumference of the
    sphere of radius 6371 km, and the antipodes (0, 0) and (0, 180) are
    exactly that far apart. *)
Theorem haversine_half_circumference :
  (forall lat1 lon1 lat2 lon2 : R,
      haversine lat1 lon1 lat2 lon2 <= 6371000 * PI) /\
  haversine 0 0 0 180 = 6371000 * PI.
Proof.
  split.
  - intros lat1 lon1 lat2 lon2. unfold haversine, haversine_with. cbv zeta.
    pose proof (asin_bound
      (sqrt (hav_arg (radians lat1) (radians lon1) (radians lat2) (radians lon2))))
      as [_ H].
    lra.
  - unfold haversine, haversine_with. cbv zeta.
    assert (H0 : radians 0 = 0) by (unfold radians; ring).
    assert (H180 : radians 180 = PI) by (unfold radians; field).
    rewrite H0, H180. unfold hav_arg.
    replace ((0 - 0) / 2) with 0 by lra.
    replace ((PI - 0) / 2) with (PI / 2) by lra.
    rewrite sin_0, cos_0, sin_PI2.
    replace (0 ^ 2 + 1 * 1 * 1 ^ 2) with 1 by ring.
    rewrite sqrt_1, asin_1. field.
Qed.

(** Longitudes count modulo 360 degrees: a full turn added to either
    longitude does not change the distance. *)
Theorem haversine_full_turn :
  forall lat1 lon1 lat2 lon2 : R,
    haversine lat1 lon1 lat2 (lon2 + 360) = haversine lat1 lon1 lat2 lon2 /\
    haversine lat1 (lon1 + 360) lat2 lon2 = haversine lat1 lon1 lat2 lon2.
Proof.
  intros lat1 lon1 lat2 lon2.
  assert (Hturn : forall x, radians (x + 360) = radians x + 2 * PI)
    by (intros x; unfold radians; field).
  assert (Hsq : forall x, sin (x + PI) ^ 2 = sin x ^ 2)
    by (intros x; rewrite neg_sin; ring).
  unfold haversine, haversine_with. cbv zeta. rewrite !Hturn. unfold hav_arg.
  split.
  - replace ((radians lon2 + 2 * PI - radians lon1) / 2)
      with ((radians lon2 - radians lon1) / 2 + PI) by lra.
    rewrite Hsq. reflexivity.
  - assert (Hneg : forall x, sin (- x) ^ 2 = sin x ^ 2)
      by (intros x; rewrite sin_neg; ring).
    replace ((radians lon2 - (radians lon1 + 2 * PI)) / 2)
      with (- ((radians lon1 - radians lon2) / 2 + PI)) by lra.
    replace ((radians lon2 - radians lon1) / 2)
      with (- ((radians lon1 - radians lon2) / 2)) by lra.
    rewrite !Hneg, Hsq. reflexivity.
Qed.

Lemma asin_abs_sin (x : R) : - (PI / 2) <= x <= PI / 2 -> asin (Rabs (sin x)) = Rabs x.
Proof.
  intros [Hlo Hhi]. pose proof PI_RGT_0 as Hpi.
  destruct (Rle_dec 0 x) as [Hx | Hx].
  - rewrite (Rabs_pos_eq x) by exact Hx.
    rewrite Rabs_pos_eq by (apply sin_ge_0; lra).
    apply asin_sin. lra.
  - rewrite (Rabs_left x) by lra.
    assert (Hs : 0 <= sin (- x)) by (apply sin_ge_0; lra).
    rewrite sin_neg in Hs.
    destruct (Req_dec (sin x) 0) as [Hz | Hz].
    + rewrite Hz, Rabs_R0. rewrite <- Hz, asin_sin by lra.
      assert (Hx0 : x = asin (sin x)) by (rewrite asin_sin; lra).
      rewrite Hz, asin_0 in Hx0. lra.
    + rewrite Rabs_left by lra. rewrite <- sin_neg. apply asin_sin. lra.
Qed.

(** Along a meridian the result is the length of the arc: two points of
    the same longitude whose latitudes differ by at most 180 degrees are
    6371000 metres times the difference in radians apart. *)
Theorem haversine_same_meridian :
  forall lat1 lat2 lon : R,
    Rabs (lat2 - lat1) <= 180 ->
    haversine lat1 lon lat2 lon = 6371000 * Rabs (radians (lat2 - lat1)).
Proof.
  intros lat1 lat2 lon Hd. pose proof PI_RGT_0 as Hpi.
  unfold haversine, haversine_with. cbv zeta. unfold hav_arg.
  replace ((radians lon - radians lon) / 2) with 0 by lra.
  replace ((radians lat2 - radians lat1) / 2) with (radians (lat2 - lat1) / 2)
    by (unfold radians; lra).
  rewrite sin_0.
  replace (sin (radians (lat2 - lat1) / 2) ^ 2
           + cos (radians lat1) * cos (radians lat2) * 0 ^ 2)
    with (Rsqr (sin (radians (lat2 - lat1) / 2))) by (unfold Rsqr; ring).
  rewrite sqrt_Rsqr_abs.
  assert (Hr : Rabs (radians (lat2 - lat1)) <= PI).
  { unfold radians. rewrite Rabs_mult, (Rabs_pos_eq (PI / 180)) by lra.
    replace PI with (180 * (PI / 180)) at 2 by field.
    apply Rmult_le_compat_r; lra. }
  assert (Hhalf : - (PI / 2) <= radians (lat2 - lat1) / 2 <= PI / 2).
  { revert Hr. unfold Rabs. destruct (Rcase_abs (radians (lat2 - lat1))); lra. }
  rewrite (asin_abs_sin _ Hhalf).
  unfold Rdiv at 1. rewrite Rabs_mult, (Rabs_pos_eq (/ 2)) by lra. lra.
Qed.

Lemma haversine_same_meridian_witness :
  haversine 52 13 53 13 = 6371000 * Rabs (radians (53 - 52)).
Proof.
  apply (haversine_same_meridian 52 53 13).
  replace (53 - 52) with 1 by lra. rewrite Rabs_pos_eq; lra.
Defined.

End GeoMore.

(** ** More on assign_areas *)

Module AreaMore.
Import Calendar Geo Frame Lib Spec AreaFacts.

Lemma find_app_l {A : Type} (f : A -> bool) (l l' : list A) (x : A) :
  find f l = Some x -> find f (l ++ l') = Some x.
Proof.
  induction l as [| y l IH]; cbn [app find]; [discriminate|].
  destruct (f y); [trivial | exact IH].
Qed.

(** On a frame with no rows [assign_areas] raises ValueError.  On a frame
    with rows it does not raise and returns one row per point, in the
    order of the input; the columns [dist] and [area] exist exactly when
    an area is configured; and in every row [in_area] holds exactly when
    [area] is not null, in which case the tag is that of a configured area
    whose radius the recorded distance is strictly inside. *)
Theorem assign_areas_rows :
  forall (df : list Point) (cfg : Config),
    (df = [] -> assign_areas df cfg = Err ValueError) /\
    (df <> [] ->
     exists frame,
       assign_areas df cfg = Ok frame /\
       map point (rows frame) = df /\
       (area_cols frame = true <-> areas cfg <> []) /\
       forall r, In r (rows frame) ->
         (in_area r = true <-> area r <> None) /\
         forall t, area r = Some t ->
           exists a, In a (areas cfg) /\ tag a = t /\
                     dist r = Some (dist_to (point r) a) /\
                     distTuple r = Some (dist_to (point r) a, Some t) /\
                     (dist_to (point r) a < radius a)%R).
Proof.
  intros df cfg. split; [intros ->; apply assign_areas_no_rows|].
  intros Hne. exists (frame_by (areas cfg) df).
  split; [apply assign_areas_closed, Hne|].
  split.
  { cbn [frame_by rows]. rewrite map_map.
    rewrite <- (map_id df) at 2. apply map_ext. intros p.
    unfold located_by. destruct (find _ _); [reflexivity|].
    destruct (rev (areas cfg)); reflexivity. }
  split.
  { unfold frame_by. cbn [area_cols]. destruct (areas cfg); split; intros H;
      try discriminate; try reflexivity. contradiction. }
  intros r Hr. cbn [frame_by rows] in Hr. apply in_map_iff in Hr as [p [<- _]].
  unfold located_by. destruct (find (within p) (areas cfg)) as [a |] eqn:Hfind.
  - cbn. split; [split; [discriminate | reflexivity]|].
    intros t Ht. injection Ht as <-.
    apply find_some in Hfind as [Hin Hw].
    exists a. repeat split; try assumption.
    apply Rltb_true. exact Hw.
  - destruct (rev (areas cfg)); cbn;
      (split; [split; [discriminate | intros H; contradiction] | discriminate]).
Qed.

Lemma assign_areas_rows_witness :
  exists frame,
    assign_areas [Sample.origin] (Sample.base_cfg [Sample.area_A; Sample.area_B])
      = Ok frame /\
    map point (rows frame) = [Sample.origin] /\
    (area_cols frame = true <->
     areas (Sample.base_cfg [Sample.area_A; Sample.area_B]) <> []) /\
    forall r, In r (rows frame) ->
      (in_area r = true <-> area r <> None) /\
      forall t, area r = Some t ->
        exists a, In a (areas (Sample.base_cfg [Sample.area_A; Sample.area_B])) /\
                  tag a = t /\
                  dist r = Some (dist_to (point r) a) /\
                  distTuple r = Some (dist_to (point r) a, Some t) /\
                  (dist_to (point r) a < radius a)%R.
Proof.
  apply (proj2 (assign_areas_rows [Sample.origin]
                  (Sample.base_cfg [Sample.area_A; Sample.area_B]))).
  discriminate.
Defined.

(** On a frame with rows, areas added at the end of the list do not touch
    the points that the areas before them hold: such a row is the same
    row, distance and tag included, in both results. *)
Theorem assign_areas_more_areas :
  forall (df : list Point) (cfg cfg' : Config) (more : list Area),
    df <> [] ->
    areas cfg' = (areas cfg ++ more)%list ->
    exists frame frame',
      assign_areas df cfg = Ok frame /\ assign_areas df cfg' = Ok frame' /\
      forall (i : nat) (r : Located),
        nth_error (rows frame) i = Some r -> in_area r = true ->
        nth_error (rows frame') i = Some r.
Proof.
  intros df cfg cfg' more Hne Hcfg.
  exists (frame_by (areas cfg) df), (frame_by (areas cfg') df).
  split; [apply assign_areas_closed, Hne|].
  split; [apply assign_areas_closed, Hne|].
  intros i r Hr Hin. cbn [frame_by rows] in *.
  rewrite nth_error_map in *.
  destruct (nth_error df i) as [p |]; [|discriminate].
  cbn [option_map] in *. injection Hr as <-. f_equal.
  unfold located_by in *.
  destruct (find (within p) (areas cfg)) as [a |] eqn:Hfind.
  - rewrite Hcfg, (find_app_l _ _ more a Hfind). reflexivity.
  - destruct (rev (areas cfg)); discriminate.
Qed.

Lemma assign_areas_more_areas_witness :
  exists frame frame',
    assign_areas [Sample.origin] (Sample.base_cfg [Sample.area_A]) = Ok frame /\
    assign_areas [Sample.origin] (Sample.base_cfg [Sample.area_A; Sample.area_B])
      = Ok frame' /\
    forall (i : nat) (r : Located),
      nth_error (rows frame) i = Some r -> in_area r = true ->
      nth_error (rows frame') i = Some r.
Proof.
  apply (assign_areas_more_areas [Sample.origin] (Sample.base_cfg [Sample.area_A])
           (Sample.base_cfg [Sample.area_A; Sample.area_B]) [Sample.area_B]).
  - discriminate.
  - reflexivity.
Defined.

(** When the frame has rows and none of its points lies inside any of the
    configured areas, the two stages together return the empty frame:
    nothing is raised. *)
Theorem no_point_in_any_area :
  forall (df : list Point) (cfg : Config) (td : Z),
    df <> [] ->
    areas cfg <> [] ->
    (forall p a, In p df -> In a (areas cfg) -> ~ (dist_to p a < radius a)%R) ->
    exists frame, assign_areas df cfg = Ok frame /\ visit_no frame td = Ok [].
Proof.
  intros df cfg td Hrows Hne Hout. exists (frame_by (areas cfg) df).
  split; [apply assign_areas_closed, Hrows|]. clear Hrows.
  rewrite VisitFacts.visit_no_scan.
  replace (area_cols (frame_by (areas cfg) df)) with true
    by (unfold frame_by; destruct (areas cfg); [contradiction | reflexivity]).
  assert (Hnone : filter in_area (rows (frame_by (areas cfg) df)) = []).
  { cbn [frame_by rows]. induction df as [| p df IH]; [reflexivity|].
    cbn [map filter]. unfold located_by at 1.
    rewrite find_nowhere.
    - assert (IH' : filter in_area (map (located_by (areas cfg)) df) = [])
        by (apply IH; intros q a Hq Ha; apply Hout; [right; exact Hq | exact Ha]).
      destruct (rev (areas cfg)); cbn [in_area]; exact IH'.
    - intros a Ha. apply Rltb_false. apply Hout; [left; reflexivity | exact Ha]. }
  rewrite Hnone. reflexivity.
Qed.

Lemma no_point_in_any_area_witness :
  exists frame,
    assign_areas [Sample.origin] (Sample.base_cfg [Sample.area_far]) = Ok frame /\
    visit_no frame three_hours = Ok [].
Proof.
  apply (no_point_in_any_area [Sample.origin] (Sample.base_cfg [Sample.area_far])
           three_hours).
  - discriminate.
  - discriminate.
  - intros p a [<- | []] [<- | []].
    rewrite (dist_to_north Sample.origin Sample.area_far 100);
      try at_origin; cbn; lra.
Defined.

End AreaMore.

(** ** More on visit_no *)

Module VisitMore.
Import Calendar Geo Frame Lib Spec VisitFacts.

Lemma obj_eq_eq (x y : option string) : obj_eq x y = true -> x = y /\ x <> None.
Proof.
  destruct x as [a |], y as [b |]; cbn; try discriminate.
  intros H. apply String.eqb_eq in H. subst. split; [reflexivity | discriminate].
Qed.

Lemma obj_eq_self (x : option string) : x <> None -> obj_eq x x = true.
Proof. destruct x as [a |]; [intros _; apply String.eqb_refl | contradiction]. Qed.

Lemma transitions_bounds td pa pd pt r : 0 <= transitions td pa pd pt r <= 2.
Proof.
  unfold transitions, obj_ne.
  destruct (obj_eq (area r) pa), (gap_exceeds td (l_time r) pt),
    (obj_eq (l_date r) pd), (obj_eq (area r) (area r)); cbn; lia.
Qed.

Lemma transitions_first_row td r : 1 <= transitions td None None None r.
Proof.
  unfold transitions, obj_ne.
  replace (obj_eq (area r) None) with false by (destruct (area r); reflexivity).
  cbn. destruct (obj_eq (area r) (area r)); cbn; lia.
Qed.

Lemma transitions_zero td pa pd pt r :
  transitions td pa pd pt r = 0 -> area r = pa /\ l_date r = pd.
Proof.
  unfold transitions, obj_ne. intros H.
  destruct (obj_eq (area r) pa) eqn:Ha.
  - apply obj_eq_eq in Ha as [Ha Hn]. rewrite (obj_eq_self _ Hn) in H.
    destruct (obj_eq (l_date r) pd) eqn:Hd.
    + apply obj_eq_eq in Hd as [Hd _]. split; assumption.
    + exfalso. revert H. destruct (gap_exceeds td (l_time r) pt); cbn; lia.
  - exfalso. revert H.
    destruct (gap_exceeds td (l_time r) pt), (obj_eq (l_date r) pd),
      (obj_eq (area r) (area r)); cbn; lia.
Qed.

Lemma numbering_ge td (df : list Located) : forall i pa pd pt acc n,
  nth_error (numbering td pa pd pt acc df) i = Some n -> acc <= n.
Proof.
  induction df as [| r df IH]; intros i pa pd pt acc n H;
    [destruct i; discriminate|].
  pose proof (transitions_bounds td pa pd pt r) as Hb.
  destruct i as [| i]; cbn [numbering nth_error] in H.
  - injection H as <-. lia.
  - apply IH in H. lia.
Qed.

Lemma numbering_mono td (df : list Located) : forall i j pa pd pt acc ni nj,
  (i <= j)%nat ->
  nth_error (numbering td pa pd pt acc df) i = Some ni ->
  nth_error (numbering td pa pd pt acc df) j = Some nj ->
  ni <= nj.
Proof.
  induction df as [| r df IH]; intros i j pa pd pt acc ni nj Hij Hi Hj;
    [destruct i; discriminate|].
  destruct i as [| i], j as [| j]; cbn [numbering nth_error] in Hi, Hj;
    try lia.
  - injection Hi as <-. injection Hj as <-. lia.
  - injection Hi as <-. apply numbering_ge in Hj. exact Hj.
  - apply (IH i j (area r) (l_date r) (l_time r)
               (acc + transitions td pa pd pt r) ni nj); [lia | assumption ..].
Qed.

(** A later row that still carries the number the scan came in with has
    the area and the date the scan came in with. *)
Lemma numbering_unchanged td (df : list Located) : forall j pa pd pt acc r,
  nth_error (numbering td pa pd pt acc df) j = Some acc ->
  nth_error df j = Some r ->
  area r = pa /\ l_date r = pd.
Proof.
  induction df as [| r0 df IH]; intros j pa pd pt acc r Hn Hr;
    [destruct j; discriminate|].
  pose proof (transitions_bounds td pa pd pt r0) as Hb.
  destruct j as [| j]; cbn [numbering nth_error] in Hn, Hr.
  - injection Hr as <-. injection Hn as Hn.
    apply (transitions_zero td pa pd pt). lia.
  - pose proof (numbering_ge _ _ _ _ _ _ _ _ Hn) as Hge.
    assert (H0 : transitions td pa pd pt r0 = 0) by lia.
    rewrite H0, Z.add_0_r in Hn.
    destruct (transitions_zero _ _ _ _ _ H0) as [<- <-].
    eapply IH; eassumption.
Qed.

Lemma numbering_group td (df : list Located) : forall i j pa pd pt acc n ri rj,
  (i <= j)%nat ->
  nth_error (numbering td pa pd pt acc df) i = Some n ->
  nth_error (numbering td pa pd pt acc df) j = Some n ->
  nth_error df i = Some ri -> nth_error df j = Some rj ->
  area ri = area rj /\ l_date ri = l_date rj.
Proof.
  induction df as [| r df IH]; intros i j pa pd pt acc n ri rj Hij Ni Nj Ri Rj;
    [destruct i; discriminate|].
  destruct i as [| i], j as [| j]; cbn [numbering nth_error] in Ni, Nj, Ri, Rj;
    try lia.
  - injection Ri as <-. injection Rj as <-. split; reflexivity.
  - injection Ri as <-. injection Ni as Ni. rewrite Ni in Nj.
    destruct (numbering_unchanged _ _ _ _ _ _ _ _ Nj Rj) as [Ha Hd].
    split; congruence.
  - apply (IH i j (area r) (l_date r) (l_time r)
               (acc + transitions td pa pd pt r) n ri rj); [lia | assumption ..].
Qed.

(** A row of the result of [visit_no] is an in-area row of the frame,
    with the number the scan gives it. *)
Lemma visit_no_row (df : AreaFrame) (td : Z) (out : list Visited) :
  visit_no df td = Ok out ->
  forall i v,
    nth_error out i = Some v ->
    nth_error (filter in_area (rows df)) i = Some (located v) /\
    nth_error (numbering td None None None 0 (filter in_area (rows df))) i
    = Some (visitNo v).
Proof.
  rewrite visit_no_scan. destruct (area_cols df); [|discriminate].
  intros H i v Hv. injection H as <-.
  rewrite nth_error_zip_with in Hv.
  destruct (nth_error (filter in_area (rows df)) i); [|discriminate].
  destruct (nth_error (numbering _ _ _ _ _ _) i); [|discriminate].
  injection Hv as <-. split; reflexivity.
Qed.

(** Along the result of [visit_no] the visit number never decreases, it
    grows by at most 2 from one row to the next, and it is at least 1. *)
Theorem visit_no_monotone :
  forall (df : AreaFrame) (td : Z) (out : list Visited),
    visit_no df td = Ok out ->
    (forall i j vi vj,
        (i <= j)%nat -> nth_error out i = Some vi -> nth_error out j = Some vj ->
        visitNo vi <= visitNo vj) /\
    (forall i v1 v2,
        nth_error out i = Some v1 -> nth_error out (S i) = Some v2 ->
        visitNo v2 <= visitNo v1 + 2) /\
    (forall v, In v out -> 1 <= visitNo v).
Proof.
  intros df td out Hout.
  pose proof (visit_no_row df td out Hout) as Hrow.
  assert (Hmono : forall i j vi vj,
             (i <= j)%nat -> nth_error out i = Some vi -> nth_error out j = Some vj ->
             visitNo vi <= visitNo vj).
  { intros i j vi vj Hij Hi Hj.
    destruct (Hrow i vi Hi) as [_ Ni]. destruct (Hrow j vj Hj) as [_ Nj].
    eapply numbering_mono; eassumption. }
  split; [exact Hmono|]. split.
  - intros i v1 v2 H1 H2.
    destruct (Hrow i v1 H1) as [R1 N1]. destruct (Hrow (S i) v2 H2) as [R2 N2].
    rewrite (numbering_adjacent td _ i _ _ _ _ _ _ _ _ R1 R2 N1 N2).
    pose proof (transitions_bounds td (area (located v1)) (l_date (located v1))
                  (l_time (located v1)) (located v2)).
    lia.
  - intros v Hv. apply In_nth_error in Hv as [i Hi].
    destruct (nth_error out 0) as [v0 |] eqn:H0.
    + assert (H1 : 1 <= visitNo v0).
      { destruct (Hrow 0%nat v0 H0) as [R0 N0].
        destruct (filter in_area (rows df)) as [| r rest]; [discriminate|].
        cbn in N0. injection N0 as <-.
        pose proof (transitions_first_row td r). lia. }
      pose proof (Hmono 0%nat i v0 v (Nat.le_0_l i) H0 Hi). lia.
    + destruct out; [destruct i|]; discriminate.
Qed.

Lemma visit_no_monotone_witness :
  exists out,
    visit_no Sample.home_6h_apart three_hours = Ok out /\
    (forall i j vi vj,
        (i <= j)%nat -> nth_error out i = Some vi -> nth_error out j = Some vj ->
        visitNo vi <= visitNo vj) /\
    (forall i v1 v2,
        nth_error out i = Some v1 -> nth_error out (S i) = Some v2 ->
        visitNo v2 <= visitNo v1 + 2) /\
    (forall v, In v out -> 1 <= visitNo v).
Proof.
  eexists. split; [rewrite visit_no_scan; reflexivity|].
  apply (visit_no_monotone Sample.home_6h_apart three_hours).
  rewrite visit_no_scan. reflexivity.
Defined.

(** Rows of the result that share a visit number share the area and the
    date: a visit is in one area on one day, which is what the grouping by
    date, visit number and area downstream relies on. *)
Theorem visit_no_groups :
  forall (df : AreaFrame) (td : Z) (out : list Visited) (v1 v2 : Visited),
    visit_no df td = Ok out ->
    In v1 out -> In v2 out -> visitNo v1 = visitNo v2 ->
    area (located v1) = area (located v2) /\
    date (point (located v1)) = date (point (located v2)).
Proof.
  intros df td out v1 v2 Hout H1 H2 Heq.
  pose proof (visit_no_row df td out Hout) as Hrow.
  apply In_nth_error in H1 as [i Hi]. apply In_nth_error in H2 as [j Hj].
  destruct (Hrow i v1 Hi) as [Ri Ni]. destruct (Hrow j v2 Hj) as [Rj Nj].
  rewrite Heq in Ni.
  assert (G : area (located v1) = area (located v2) /\
              l_date (located v1) = l_date (located v2)).
  { destruct (Nat.le_ge_cases i j) as [Hij | Hij].
    - eapply numbering_group with (i := i) (j := j); eassumption.
    - assert (G' : area (located v2) = area (located v1) /\
                   l_date (located v2) = l_date (located v1))
        by (eapply numbering_group with (i := j) (j := i); eassumption).
      destruct G'. split; congruence. }
  destruct G as [Ga Gd]. split; [exact Ga|].
  unfold l_date in Gd. congruence.
Qed.

Lemma visit_no_groups_witness :
  exists out v1 v2,
    visit_no Sample.home_1h_gaps three_hours = Ok out /\
    nth_error out 0 = Some v1 /\ nth_error out 2 = Some v2 /\
    visitNo v1 = visitNo v2 /\
    area (located v1) = area (located v2) /\
    date (point (located v1)) = date (point (located v2)).
Proof.
  assert (H : exists out v1 v2,
             visit_no Sample.home_1h_gaps three_hours = Ok out /\
             nth_error out 0 = Some v1 /\ nth_error out 2 = Some v2 /\
             visitNo v1 = visitNo v2).
  { eexists. eexists. eexists.
    split; [rewrite visit_no_scan; reflexivity|].
    split; [reflexivity|]. split; [reflexivity|]. vm_compute. reflexivity. }
  destruct H as [out [v1 [v2 [Hout [H1 [H2 Heq]]]]]].
  exists out, v1, v2. repeat (split; [assumption|]).
  apply (visit_no_groups Sample.home_1h_gaps three_hours out v1 v2 Hout).
  - apply (nth_error_In out 0 H1).
  - apply (nth_error_In out 2 H2).
  - exact Heq.
Defined.

End VisitMore.

(** ** Digits, padded fields and their order *)

Module TextFacts.
Import Text Calendar Spec.

Ltac digit_cases x :=
  let H := fresh in
  assert (H : x = 0 \/ x = 1 \/ x = 2 \/ x = 3 \/ x = 4 \/ x = 5 \/ x = 6
              \/ x = 7 \/ x = 8 \/ x = 9) by lia;
  repeat (destruct H as [H | H]; [subst x | ]); [.. | subst x].

Lemma digit_val_char (d : Z) : 0 <= d <= 9 -> digit_val (digit_char d) = Some d.
Proof. intros H. digit_cases d; reflexivity. Qed.

Lemma digit_char_val (c : ascii) (d : Z) : digit_val c = Some d -> digit_char d = c.
Proof.
  unfold digit_val, digit_char.
  destruct ((48 <=? Z.of_nat (nat_of_ascii c)) && (Z.of_nat (nat_of_ascii c) <=? 57))
    eqn:Hr; [|discriminate].
  apply andb_prop in Hr as [H1 H2]. apply Z.leb_le in H1, H2.
  intros H. injection H as <-.
  rewrite Z.mod_small by lia.
  replace (48 + Z.to_nat (Z.of_nat (nat_of_ascii c) - 48))%nat
    with (nat_of_ascii c) by lia.
  apply ascii_nat_embedding.
Qed.

Lemma digit_val_bounds (c : ascii) (d : Z) : digit_val c = Some d -> 0 <= d <= 9.
Proof.
  unfold digit_val.
  destruct ((48 <=? Z.of_nat (nat_of_ascii c)) && (Z.of_nat (nat_of_ascii c) <=? 57))
    eqn:Hr; [|discriminate].
  apply andb_prop in Hr as [H1 H2]. apply Z.leb_le in H1, H2.
  intros H. injection H as <-. lia.
Qed.

Lemma digit_char_mod (d : Z) : digit_char d = digit_char (d mod 10).
Proof. unfold digit_char. rewrite Z.mod_mod by lia. reflexivity. Qed.

Lemma digit_char_compare (a b : Z) :
  Ascii.compare (digit_char a) (digit_char b) = (a mod 10 ?= b mod 10).
Proof.
  rewrite (digit_char_mod a), (digit_char_mod b).
  pose proof (Z.mod_pos_bound a 10 ltac:(lia)) as Ha.
  pose proof (Z.mod_pos_bound b 10 ltac:(lia)) as Hb.
  set (x := a mod 10) in *. set (y := b mod 10) in *. clearbody x y.
  digit_cases x; digit_cases y; reflexivity.
Qed.

(** One digit reads back as the number it prints. *)
Lemma parse_digit (d : Z) :
  0 <= d <= 9 -> parse_int (String (digit_char d) EmptyString) = Some d.
Proof. intros H. digit_cases d; reflexivity. Qed.

Lemma string_leb_compare (s1 s2 : string) :
  String.leb s1 s2 = match String.compare s1 s2 with Gt => false | _ => true end.
Proof. reflexivity. Qed.

(** Two ["HH:MM"] strings are in lexicographic order exactly when the
    times they spell are in chronological order. *)
Lemma hhmm_leb (h1 m1 h2 m2 : Z) :
  0 <= h1 < 100 -> 0 <= m1 < 60 -> 0 <= h2 < 100 -> 0 <= m2 < 60 ->
  String.leb (hhmm h1 m1) (hhmm h2 m2) = (60 * h1 + m1 <=? 60 * h2 + m2).
Proof.
  intros H1 M1 H2 M2.
  rewrite string_leb_compare. unfold hhmm, pad2.
  cbn [append String.compare]. rewrite !digit_char_compare.
  change (Ascii.compare ":" ":") with Eq.
  destruct (Z.compare_spec ((h1 / 10) mod 10) ((h2 / 10) mod 10));
    destruct (Z.compare_spec (h1 mod 10) (h2 mod 10));
    destruct (Z.compare_spec ((m1 / 10) mod 10) ((m2 / 10) mod 10));
    destruct (Z.compare_spec (m1 mod 10) (m2 mod 10));
    destruct (Z.leb_spec (60 * h1 + m1) (60 * h2 + m2));
    try reflexivity; exfalso; Z.div_mod_to_equations; lia.
Qed.

Lemma format_daytime_hhmm (t : Timestamp) :
  exists h m,
    format_daytime t = hhmm h m /\ 0 <= h < 24 /\ 0 <= m < 60 /\
    minute_of_day t = 60 * h + m.
Proof.
  unfold format_daytime, minute_of_day, hhmm, ms_per_day.
  set (ms := local_ms t mod 86400000).
  assert (Hms : 0 <= ms < 86400000) by (apply Z.mod_pos_bound; lia).
  clearbody ms.
  exists (ms / 3600000), (ms mod 3600000 / 60000).
  split; [reflexivity|].
  repeat split; Z.div_mod_to_equations; lia.
Qed.

Lemma string_compare_refl (s : string) : String.compare s s = Eq.
Proof.
  induction s as [| c s IH]; [reflexivity|].
  cbn [String.compare]. unfold Ascii.compare. rewrite N.compare_refl. exact IH.
Qed.

Lemma ascii_compare_lt_trans (a b c : ascii) :
  Ascii.compare a b = Lt -> Ascii.compare b c = Lt -> Ascii.compare a c = Lt.
Proof.
  unfold Ascii.compare. rewrite !N.compare_lt_iff. apply N.lt_trans.
Qed.

Lemma string_compare_le_trans (s1 : string) : forall s2 s3,
  String.compare s1 s2 <> Gt -> String.compare s2 s3 <> Gt ->
  String.compare s1 s3 <> Gt.
Proof.
  induction s1 as [| a s1 IH]; intros [| b s2] [| c s3] H12 H23;
    cbn [String.compare] in *; try discriminate; try congruence.
  destruct (Ascii.compare a b) eqn:Hab; try congruence;
    destruct (Ascii.compare b c) eqn:Hbc; try congruence.
  - apply Ascii.compare_eq_iff in Hab, Hbc. subst.
    unfold Ascii.compare. rewrite N.compare_refl. eapply IH; eassumption.
  - apply Ascii.compare_eq_iff in Hab. subst. rewrite Hbc. discriminate.
  - apply Ascii.compare_eq_iff in Hbc. subst. rewrite Hab. discriminate.
  - rewrite (ascii_compare_lt_trans a b c Hab Hbc). discriminate.
Qed.

Lemma string_leb_trans (s1 s2 s3 : string) :
  String.leb s1 s2 = true -> String.leb s2 s3 = true -> String.leb s1 s3 = true.
Proof.
  rewrite !string_leb_compare. intros H12 H23.
  assert (H : String.compare s1 s3 <> Gt).
  { apply (string_compare_le_trans s1 s2 s3).
    - destruct (String.compare s1 s2); congruence.
    - destruct (String.compare s2 s3); congruence. }
  destruct (String.compare s1 s3); congruence.
Qed.

End TextFacts.

(** ** More on the masks *)

Module MaskMore.
Import Text Calendar Frame Lib Spec.

Lemma isin_str_In (values : list string) (x : string) :
  isin_str values x = true <-> In x values.
Proof.
  unfold isin_str. rewrite existsb_exists. split.
  - intros [y [Hy He]]. apply String.eqb_eq in He. subst. exact Hy.
  - intros H. exists x. split; [exact H | apply String.eqb_refl].
Qed.

Lemma mapM_In {A B : Type} (f : A -> result B) (l : list A) : forall ys x,
  mapM f l = Ok ys -> In x l -> exists y, f x = Ok y /\ In y ys.
Proof.
  induction l as [| a l IH]; intros ys x H Hin; [destruct Hin|].
  cbn [mapM] in H.
  apply MaskFacts.bind_ok in H as [b [Hb H]].
  apply MaskFacts.bind_ok in H as [bs [Hbs H]]. injection H as <-.
  destruct Hin as [<- | Hin].
  - exists b. split; [exact Hb | left; reflexivity].
  - destruct (IH bs x Hbs Hin) as [y [Hy Hy']].
    exists y. split; [exact Hy | right; exact Hy'].
Qed.

Lemma date_range_In (start stop d : Z) :
  start <= d <= stop -> In d (date_range start stop).
Proof.
  intros H. unfold date_range. apply in_map_iff.
  exists (Z.to_nat (d - start)). split; [lia|].
  apply in_seq. lia.
Qed.

Lemma clean_row_weekday (r : TimedRow) :
  parse_int (weekday (clean_row r)) = Some (weekday_no (local_day (time r))) /\
  0 <= weekday_no (local_day (time r)) <= 6.
Proof.
  unfold weekday_no.
  pose proof (Z.mod_pos_bound (local_day (time r) + 4) 7 ltac:(lia)) as Hb.
  split; [|lia].
  unfold clean_row. cbn [weekday]. unfold format_weekday.
  apply TextFacts.parse_digit. lia.
Qed.

(** On a frame that [clean_lhdf] made, [workdays_mask] never raises: the
    weekday column always reads back as a number from 0 to 6, counted from
    Sunday, and the mask tells whether that number is a configured
    workday. *)
Theorem workdays_mask_cleaned :
  forall (df : list TimedRow) (cfg : Config),
    workdays_mask (clean_lhdf df) cfg
    = Ok (map (fun r => isin_int (workdays cfg) (weekday_no (local_day (time r)))) df)
    /\
    Forall (fun r => 0 <= weekday_no (local_day (time r)) <= 6) df.
Proof.
  intros df cfg. split.
  - unfold workdays_mask, clean_lhdf.
    rewrite (AreaFacts.mapM_map_ok _ clean_row
               (fun r => weekday_no (local_day (time r)))).
    + cbn [bind]. rewrite map_map. reflexivity.
    + intros r. destruct (clean_row_weekday r) as [-> _]. reflexivity.
  - apply Forall_forall. intros r _. apply clean_row_weekday.
Qed.

(** On a frame that [clean_lhdf] made and with working hours spelt
    ["HH:MM"], the string comparison of [worktime_mask] is the comparison
    of times of day: a point is kept exactly when the minute of its local
    day is between the two, both included. *)
Theorem worktime_mask_cleaned :
  forall (df : list TimedRow) (cfg : Config) (hs ms he me : Z) (rest : list string),
    worktimes cfg = hhmm hs ms :: hhmm he me :: rest ->
    0 <= hs < 24 -> 0 <= ms < 60 -> 0 <= he < 24 -> 0 <= me < 60 ->
    worktime_mask (clean_lhdf df) cfg
    = Ok (map (fun r => (60 * hs + ms <=? minute_of_day (time r))
                        && (minute_of_day (time r) <=? 60 * he + me)) df).
Proof.
  intros df cfg hs ms he me rest Hcfg Hhs Hms Hhe Hme.
  unfold worktime_mask, index. rewrite Hcfg. cbn [nth_error bind].
  unfold clean_lhdf. rewrite map_map. f_equal. apply map_ext. intros r.
  unfold between, clean_row. cbn [daytime].
  destruct (TextFacts.format_daytime_hhmm (time r)) as [h [m [-> [Hh [Hm ->]]]]].
  rewrite !TextFacts.hhmm_leb by lia. reflexivity.
Qed.

Lemma worktime_mask_cleaned_witness :
  worktime_mask
    (clean_lhdf [mkTimed Sample.new_year_eve (mkTimestamp 1672529400000 3600000)])
    (Sample.base_cfg [])
  = Ok (map (fun r => (60 * 9 + 0 <=? minute_of_day (time r))
                      && (minute_of_day (time r) <=? 60 * 18 + 0))
            [mkTimed Sample.new_year_eve (mkTimestamp 1672529400000 3600000)]).
Proof.
  apply (worktime_mask_cleaned
           [mkTimed Sample.new_year_eve (mkTimestamp 1672529400000 3600000)]
           (Sample.base_cfg []) 9 0 18 0 []); try lia.
  reflexivity.
Defined.

(** [worktime_mask] reads the first two entries of [worktimes] and nothing
    else: with fewer than two it raises IndexError, with two or more it
    returns a mask as long as the frame. *)
Theorem worktime_mask_index_error :
  forall (df : list Point) (cfg : Config),
    ((List.length (worktimes cfg) < 2)%nat -> worktime_mask df cfg = Err IndexError) /\
    ((2 <= List.length (worktimes cfg))%nat ->
     exists mask, worktime_mask df cfg = Ok mask /\
                  List.length mask = List.length df).
Proof.
  intros df cfg. unfold worktime_mask, index.
  destruct (worktimes cfg) as [| a [| b rest]]; cbn [List.length nth_error bind].
  - split; [reflexivity | lia].
  - split; [reflexivity | lia].
  - split; [lia|]. intros _. eexists. split; [reflexivity|]. apply length_map.
Qed.

Lemma worktime_mask_index_error_witness :
  worktime_mask Sample.boundary_points
    (mkConfig [] ["09:00"%string] [1; 2; 3; 4; 5] "DE" "BY" [])
  = Err IndexError.
Proof.
  apply (proj1 (worktime_mask_index_error Sample.boundary_points
                  (mkConfig [] ["09:00"%string] [1; 2; 3; 4; 5] "DE" "BY" []))).
  cbn. lia.
Defined.

(** Working hours whose end is, as a string, before their start keep no
    point at all, and raise nothing: a window over midnight such as 22:00
    to 06:00 empties the frame. *)
Theorem worktime_mask_end_before_start :
  forall (df : list Point) (cfg : Config) (left right : string) (rest : list string),
    worktimes cfg = left :: right :: rest ->
    String.ltb right left = true ->
    worktime_mask df cfg = Ok (map (fun _ => false) df).
Proof.
  intros df cfg left right rest Hcfg Hlt.
  unfold worktime_mask, index. rewrite Hcfg. cbn [nth_error bind].
  f_equal. apply map_ext. intros r. unfold between.
  destruct (String.leb left (daytime r)) eqn:H1; [|reflexivity].
  destruct (String.leb (daytime r) right) eqn:H2; [|reflexivity].
  pose proof (TextFacts.string_leb_trans _ _ _ H1 H2) as H3.
  exfalso. revert Hlt H3. unfold String.ltb.
  rewrite TextFacts.string_leb_compare, (String.compare_antisym left right).
  destruct (String.compare right left); cbn; congruence.
Qed.

Lemma worktime_mask_end_before_start_witness :
  worktime_mask Sample.boundary_points
    (mkConfig [] ["22:00"; "06:00"]%string [1; 2; 3; 4; 5] "DE" "BY" [])
  = Ok (map (fun _ => false) Sample.boundary_points).
Proof.
  apply (worktime_mask_end_before_start Sample.boundary_points
           (mkConfig [] ["22:00"; "06:00"]%string [1; 2; 3; 4; 5] "DE" "BY" [])
           "22:00" "06:00" []).
  - reflexivity.
  - reflexivity.
Defined.

(** A point whose local day lies between the first and the last day of an
    entry of the vacation list is dropped by [vacation_mask], whatever the
    other entries are, as long as they all expand. *)
Theorem vacation_mask_drops_vacation :
  forall (df : list TimedRow) (cfg : Config) (vac : VacEntry) (f t : string)
         (s e : Z) (days : list string) (i : nat) (r : TimedRow),
    In vac (vacation cfg) -> entry_bounds vac = Some (f, t) ->
    parse_date f = Ok s -> parse_date t = Ok e ->
    vacation_days cfg = Ok days ->
    nth_error df i = Some r -> s <= local_day (time r) <= e ->
    exists mask,
      vacation_mask (clean_lhdf df) cfg = Ok mask /\ nth_error mask i = Some false.
Proof.
  intros df cfg vac f t s e days i r Hin Hb Hf Ht Hdays Hr Hday.
  unfold vacation_mask. rewrite Hdays. cbn [bind].
  eexists. split; [reflexivity|].
  unfold clean_lhdf. rewrite map_map, nth_error_map, Hr. cbn [option_map].
  f_equal. apply negb_false_iff, isin_str_In.
  unfold clean_row. cbn [date].
  unfold vacation_days in Hdays.
  apply MaskFacts.bind_ok in Hdays as [ys [Hys Hd]]. injection Hd as <-.
  destruct (mapM_In _ _ _ vac Hys Hin) as [y [Hy Hyin]].
  apply in_concat. exists y. split; [exact Hyin|].
  assert (Hexp : vacation_entry_days vac = Ok (map format_date (date_range s e))).
  { unfold vacation_entry_days.
    destruct vac as [d | [f' |] [t' |]]; cbn in Hb; try discriminate;
      injection Hb as <- <-; cbn [bind fst snd]; rewrite Hf; cbn [bind];
      try rewrite Ht; try rewrite Hf; cbn [bind];
      try (replace e with s by congruence); reflexivity. }
  rewrite Hexp in Hy. injection Hy as <-.
  apply in_map, date_range_In, Hday.
Qed.

Lemma vacation_mask_drops_vacation_witness :
  exists mask,
    vacation_mask
      (clean_lhdf [mkTimed Sample.new_year_eve (mkTimestamp 1672529400000 3600000)])
      (mkConfig [VacDict (Some "2022-12-27") (Some "2023-01-05")]%string
                ["09:00"; "18:00"]%string [1; 2; 3; 4; 5] "DE" "BY" [])
    = Ok mask /\ nth_error mask 0 = Some false.
Proof.
  apply (vacation_mask_drops_vacation
           [mkTimed Sample.new_year_eve (mkTimestamp 1672529400000 3600000)]
           (mkConfig [VacDict (Some "2022-12-27") (Some "2023-01-05")]%string
                     ["09:00"; "18:00"]%string [1; 2; 3; 4; 5] "DE" "BY" [])
           (VacDict (Some "2022-12-27") (Some "2023-01-05"))%string
           "2022-12-27" "2023-01-05" 19353 19362
           (map format_date (date_range 19353 19362)) 0%nat
           (mkTimed Sample.new_year_eve (mkTimestamp 1672529400000 3600000))).
  - left. reflexivity.
  - reflexivity.
  - vm_compute. reflexivity.
  - vm_compute. reflexivity.
  - vm_compute. reflexivity.
  - reflexivity.
  - vm_compute. split; discriminate.
Defined.

(** A point whose local day is one of the days the holiday calendar
    returns for the configured state, province and year is dropped by
    [bank_holiday_mask]; when the calendar fails, so does the mask. *)
Theorem bank_holiday_mask_drops_holidays :
  forall (holidays : string -> string -> Z -> result (list Z))
         (df : list TimedRow) (cfg : Config) (year : Z),
    (forall (days : list Z) (i : nat) (r : TimedRow),
        holidays (bank_holidays_state cfg) (bank_holidays_province cfg) year = Ok days ->
        nth_error df i = Some r -> In (local_day (time r)) days ->
        exists mask,
          bank_holiday_mask holidays (clean_lhdf df) cfg year = Ok mask /\
          nth_error mask i = Some false) /\
    (forall e,
        holidays (bank_holidays_state cfg) (bank_holidays_province cfg) year = Err e ->
        bank_holiday_mask holidays (clean_lhdf df) cfg year = Err e).
Proof.
  intros holidays df cfg year. split.
  - intros days i r Hhol Hr Hin.
    unfold bank_holiday_mask, bank_holidays. rewrite Hhol. cbn [bind].
    eexists. split; [reflexivity|].
    unfold clean_lhdf. rewrite map_map, nth_error_map, Hr. cbn [option_map].
    f_equal. apply negb_false_iff, isin_str_In.
    unfold clean_row. cbn [date]. apply in_map, Hin.
  - intros e Hhol. unfold bank_holiday_mask, bank_holidays. rewrite Hhol.
    reflexivity.
Qed.

Lemma bank_holiday_mask_drops_holidays_witness :
  exists mask,
    bank_holiday_mask (fun _ _ _ => Ok [19358])
      (clean_lhdf [mkTimed Sample.new_year_eve (mkTimestamp 1672529400000 3600000)])
      (Sample.base_cfg []) 2023
    = Ok mask /\ nth_error mask 0 = Some false.
Proof.
  apply (proj1 (bank_holiday_mask_drops_holidays (fun _ _ _ => Ok [19358])
                  [mkTimed Sample.new_year_eve (mkTimestamp 1672529400000 3600000)]
                  (Sample.base_cfg []) 2023)
           [19358] 0%nat
           (mkTimed Sample.new_year_eve (mkTimestamp 1672529400000 3600000))).
  - reflexivity.
  - reflexivity.
  - left. vm_compute. reflexivity.
Defined.

End MaskMore.

(** ** More on apply_masks *)

Module ApplyMore.
Import Frame Lib.

Lemma boolean_index_nil_r {A : Type} (df : list A) : boolean_index df [] = [].
Proof. unfold boolean_index. destruct df; reflexivity. Qed.

Lemma boolean_index_cons {A : Type} (d : A) (df : list A) (b : bool) (m : list bool) :
  boolean_index (d :: df) (b :: m)
  = if b then d :: boolean_index df m else boolean_index df m.
Proof. unfold boolean_index. cbn [combine filter snd]. destruct b; reflexivity. Qed.

Lemma series_and_nil_r (i : list bool) : series_and i [] = [].
Proof. destruct i; reflexivity. Qed.

Lemma series_and_cons (x y : bool) (i j : list bool) :
  series_and (x :: i) (y :: j) = (x && y) :: series_and i j.
Proof. reflexivity. Qed.

(** Selecting by the conjunction of two masks is selecting by the first,
    then by what the first leaves of the second. *)
Lemma boolean_index_and {A : Type} (df : list A) : forall m x,
  boolean_index df (series_and m x)
  = boolean_index (boolean_index df m) (boolean_index x m).
Proof.
  induction df as [| d df IH]; intros m x; [reflexivity|].
  destruct m as [| b m]; [reflexivity|].
  destruct x as [| y x].
  - rewrite series_and_nil_r, (boolean_index_nil_r (d :: df)).
    change (boolean_index (@nil bool) (b :: m)) with (@nil bool).
    symmetry. apply boolean_index_nil_r.
  - rewrite series_and_cons, !boolean_index_cons.
    destruct b; cbn [andb].
    + rewrite boolean_index_cons. destruct y; rewrite IH; reflexivity.
    + apply IH.
Qed.

Lemma boolean_index_series_and (a : list bool) : forall b m,
  boolean_index (series_and a b) m
  = series_and (boolean_index a m) (boolean_index b m).
Proof.
  induction a as [| x a IH]; intros b m; [reflexivity|].
  destruct b as [| y b].
  - rewrite series_and_nil_r.
    change (boolean_index (@nil bool) m) with (@nil bool).
    rewrite series_and_nil_r. reflexivity.
  - destruct m as [| c m]; [rewrite !boolean_index_nil_r; reflexivity|].
    rewrite series_and_cons, !boolean_index_cons.
    destruct c; [rewrite series_and_cons|]; rewrite IH; reflexivity.
Qed.

Lemma fold_and_out (ms : list (list bool)) : forall a b,
  fold_left series_and ms (series_and a b) = series_and a (fold_left series_and ms b).
Proof.
  induction ms as [| m ms IH]; intros a b; [reflexivity|].
  cbn [fold_left]. rewrite MaskFacts.series_and_assoc. apply IH.
Qed.

Lemma fold_and_restricted (m1 : list bool) (ms : list (list bool)) : forall b,
  fold_left series_and (map (fun m => boolean_index m m1) ms) (boolean_index b m1)
  = boolean_index (fold_left series_and ms b) m1.
Proof.
  induction ms as [| m ms IH]; intros b; [reflexivity|].
  cbn [map fold_left]. rewrite <- boolean_index_series_and. apply IH.
Qed.

(** [apply_masks] raises TypeError on an empty list of masks, the
    [reduce] having no initial value; with at least one mask (masks being
    series over the rows of the frame) it returns, and what it returns are
    rows of the frame, no more of them than the frame has. *)
Theorem apply_masks_empty_or_subset :
  forall (A : Type) (df : list A),
    apply_masks df [] = Err TypeError /\
    forall (m : list bool) (ms : list (list bool)),
      Forall (fun m' => List.length m' = List.length df) (m :: ms) ->
      exists out,
        apply_masks df (m :: ms) = Ok out /\
        (List.length out <= List.length df)%nat /\
        forall r, In r out -> In r df.
Proof.
  intros A df. split; [reflexivity|].
  intros m ms _. unfold apply_masks, reduce. cbn [bind].
  set (mask := fold_left series_and ms m). clearbody mask.
  exists (boolean_index df mask). split; [reflexivity|].
  unfold boolean_index. split.
  - rewrite length_map.
    eapply Nat.le_trans; [apply filter_length_le|].
    rewrite length_combine. apply Nat.le_min_l.
  - intros r Hr. apply in_map_iff in Hr as [[r' b] [<- Hr]].
    apply filter_In in Hr as [Hr _]. apply in_combine_l in Hr. exact Hr.
Qed.

Lemma apply_masks_empty_or_subset_witness :
  exists out,
    apply_masks Sample.boundary_points
      [[true; true; false; false]; [true; false; true; false]] = Ok out /\
    (List.length out <= List.length Sample.boundary_points)%nat /\
    forall r, In r out -> In r Sample.boundary_points.
Proof.
  apply (proj2 (apply_masks_empty_or_subset Point Sample.boundary_points)
           [true; true; false; false] [[true; false; true; false]]).
  repeat constructor.
Defined.

(** Filtering by several masks at once is filtering by the first one and
    then by the others, each cut down to the rows the first one kept. *)
Theorem apply_masks_in_stages :
  forall (A : Type) (df : list A) (m1 m2 : list bool) (ms : list (list bool)),
    Forall (fun m => List.length m = List.length df) (m1 :: m2 :: ms) ->
    apply_masks df (m1 :: m2 :: ms)
    = apply_masks (boolean_index df m1)
                  (map (fun m => boolean_index m m1) (m2 :: ms)).
Proof.
  intros A df m1 m2 ms _. unfold apply_masks, reduce. cbn [map fold_left bind].
  rewrite fold_and_out, boolean_index_and, fold_and_restricted. reflexivity.
Qed.

Lemma apply_masks_in_stages_witness :
  apply_masks Sample.boundary_points
    [[true; true; false; true]; [true; false; true; true]; [true; true; true; false]]
  = apply_masks (boolean_index Sample.boundary_points [true; true; false; true])
      [[true; false; true]; [true; true; false]].
Proof.
  apply (apply_masks_in_stages Point Sample.boundary_points
           [true; true; false; true] [true; false; true; true]
           [[true; true; true; false]]).
  repeat constructor.
Defined.

End ApplyMore.

(** ** More on vacation_days *)

Module VacationMore.
Import Text Calendar Frame Lib Spec.

Lemma digit_char_eq (a b : Z) : a mod 10 = b mod 10 -> digit_char a = digit_char b.
Proof. intros H. unfold digit_char. rewrite H. reflexivity. Qed.

Lemma ymd_eqb_eq (a b : Z * Z * Z) : ymd_eqb a b = true -> a = b.
Proof.
  destruct a as [[y1 m1] d1], b as [[y2 m2] d2]. unfold ymd_eqb.
  intros H. apply andb_prop in H as [H Hd]. apply andb_prop in H as [Hy Hm].
  apply Z.eqb_eq in Hy, Hm, Hd. subst. reflexivity.
Qed.

Lemma parse_date_length (s : string) (day : Z) :
  parse_date s = Ok day -> String.length s = 10%nat.
Proof.
  unfold parse_date.
  destruct (parse_nat (substring 0 4 s)); [|discriminate].
  destruct (parse_nat (substring 5 2 s)); [|discriminate].
  destruct (parse_nat (substring 8 2 s)); [|discriminate].
  destruct (String.length s =? 10)%nat eqn:Hlen; [|discriminate].
  intros _. apply Nat.eqb_eq. exact Hlen.
Qed.

(** A date string that [parse_date] accepts is printed back unchanged. *)
Lemma format_parse_date (s : string) (day : Z) :
  parse_date s = Ok day -> format_date day = s.
Proof.
  intros H. pose proof (parse_date_length s day H) as Hlen.
  destruct s as [| c0 [| c1 [| c2 [| c3 [| c4 [| c5 [| c6 [| c7 [| c8 [| c9 [| c10 s]]]]]]]]]]];
    cbn [String.length] in Hlen; try discriminate Hlen.
  unfold parse_date in H.
  cbn [substring String.length parse_nat parse_digits Nat.eqb andb] in H.
  destruct (digit_val c0) as [d0 |] eqn:D0; [|discriminate].
  destruct (digit_val c1) as [d1 |] eqn:D1; [|discriminate].
  destruct (digit_val c2) as [d2 |] eqn:D2; [|discriminate].
  destruct (digit_val c3) as [d3 |] eqn:D3; [|discriminate].
  destruct (digit_val c5) as [d5 |] eqn:D5; [|discriminate].
  destruct (digit_val c6) as [d6 |] eqn:D6; [|discriminate].
  destruct (digit_val c8) as [d8 |] eqn:D8; [|discriminate].
  destruct (digit_val c9) as [d9 |] eqn:D9; [|discriminate].
  destruct (String.eqb (String c4 "") "-") eqn:E4; [|discriminate].
  destruct (String.eqb (String c7 "") "-") eqn:E7; [|discriminate].
  apply String.eqb_eq in E4, E7. injection E4 as ->. injection E7 as ->.
  cbn [andb] in H. cbv zeta in H.
  set (y := 10 * (10 * (10 * (10 * 0 + d0) + d1) + d2) + d3) in *.
  set (m := 10 * (10 * 0 + d5) + d6) in *.
  set (d := 10 * (10 * 0 + d8) + d9) in *.
  destruct (ymd_eqb (civil_from_days (days_from_civil y m d)) (y, m, d)) eqn:E;
    [|discriminate].
  cbn [negb] in H.
  destruct (in_bounds (days_from_civil y m d * ms_per_day)); [|discriminate].
  injection H as <-. apply ymd_eqb_eq in E.
  unfold format_date. rewrite E. unfold pad4, pad2. cbn [append].
  apply TextFacts.digit_val_bounds in D0 as B0.
  apply TextFacts.digit_val_bounds in D1 as B1.
  apply TextFacts.digit_val_bounds in D2 as B2.
  apply TextFacts.digit_val_bounds in D3 as B3.
  apply TextFacts.digit_val_bounds in D5 as B5.
  apply TextFacts.digit_val_bounds in D6 as B6.
  apply TextFacts.digit_val_bounds in D8 as B8.
  apply TextFacts.digit_val_bounds in D9 as B9.
  rewrite <- (TextFacts.digit_char_val c0 d0 D0), <- (TextFacts.digit_char_val c1 d1 D1),
    <- (TextFacts.digit_char_val c2 d2 D2), <- (TextFacts.digit_char_val c3 d3 D3),
    <- (TextFacts.digit_char_val c5 d5 D5), <- (TextFacts.digit_char_val c6 d6 D6),
    <- (TextFacts.digit_char_val c8 d8 D8), <- (TextFacts.digit_char_val c9 d9 D9).
  rewrite (digit_char_eq (y / 1000) d0), (digit_char_eq (y / 100) d1),
    (digit_char_eq (y / 10) d2), (digit_char_eq y d3),
    (digit_char_eq (m / 10) d5), (digit_char_eq m d6),
    (digit_char_eq (d / 10) d8), (digit_char_eq d d9);
    [reflexivity | subst y m d; Z.div_mod_to_equations; lia ..].
Qed.

Lemma date_range_one (day : Z) : date_range day day = [day].
Proof.
  unfold date_range. replace (Z.to_nat (day - day + 1)) with 1%nat by lia.
  cbn [seq map]. f_equal. lia.
Qed.

Lemma nth_error_seq (a n k : nat) :
  (k < n)%nat -> nth_error (seq a n) k = Some (a + k)%nat.
Proof.
  revert a k. induction n as [| n IH]; intros a k H; [lia|].
  destruct k as [| k]; cbn [seq nth_error].
  - rewrite Nat.add_0_r. reflexivity.
  - rewrite IH by lia. f_equal. lia.
Qed.

Lemma date_range_nth (start stop : Z) (k : nat) :
  start + Z.of_nat k <= stop ->
  nth_error (date_range start stop) k = Some (start + Z.of_nat k).
Proof.
  intros H. unfold date_range.
  rewrite nth_error_map, nth_error_seq by lia. reflexivity.
Qed.

Lemma mapM_app {A B : Type} (f : A -> result B) (l1 l2 : list A) : forall ys1 ys2,
  mapM f l1 = Ok ys1 -> mapM f l2 = Ok ys2 ->
  mapM f (l1 ++ l2) = Ok (ys1 ++ ys2)%list.
Proof.
  induction l1 as [| x l1 IH]; intros ys1 ys2 H1 H2; cbn [app mapM] in *.
  - injection H1 as <-. exact H2.
  - apply MaskFacts.bind_ok in H1 as [y [Hy H1]].
    apply MaskFacts.bind_ok in H1 as [ys [Hys H1]]. injection H1 as <-.
    rewrite Hy, (IH ys ys2 Hys H2). reflexivity.
Qed.

(** For a date written zero-padded as ["YYYY-MM-DD"] that [pd.date_range]
    reads (a day of the calendar, within the range of a Timestamp): an
    entry that names that one day (a plain date, a dict with only [from],
    or a dict whose [from] and [to] are the same) expands to that one date
    string, unchanged. *)
Theorem vacation_days_single_date :
  forall (cfg : Config) (vac : VacEntry) (d : string) (day : Z),
    vacation cfg = [vac] -> entry_bounds vac = Some (d, d) ->
    iso_date d = true -> parse_date d = Ok day ->
    vacation_days cfg = Ok [d].
Proof.
  intros cfg vac d day Hcfg Hb _ Hd.
  unfold vacation_days. rewrite Hcfg. cbn [mapM].
  assert (Hexp : vacation_entry_days vac = Ok [d]).
  { unfold vacation_entry_days.
    destruct vac as [d' | [f' |] [t' |]]; cbn in Hb; try discriminate;
      injection Hb as <-; subst; cbn [bind fst snd]; rewrite Hd; cbn [bind];
      rewrite date_range_one; cbn [map];
      rewrite (format_parse_date _ _ Hd); reflexivity. }
  rewrite Hexp. reflexivity.
Qed.

Lemma vacation_days_single_date_witness :
  vacation_days (mkConfig [VacDict (Some "2023-02-05"%string) None] [] [] "DE" "BY" [])
  = Ok ["2023-02-05"%string].
Proof.
  apply (vacation_days_single_date
           (mkConfig [VacDict (Some "2023-02-05"%string) None] [] [] "DE" "BY" [])
           (VacDict (Some "2023-02-05"%string) None) "2023-02-05" 19393).
  - reflexivity.
  - reflexivity.
  - reflexivity.
  - vm_compute. reflexivity.
Defined.

(** For [from] and [to] written zero-padded as ["YYYY-MM-DD"] that
    [pd.date_range] reads, [from] not after [to]: the range expands to one
    date per day, both ends included, and the list starts with the [from]
    string and ends with the [to] string. *)
Theorem vacation_days_range_ends :
  forall (cfg : Config) (f t : string) (s e : Z),
    vacation cfg = [VacDict (Some f) (Some t)] ->
    iso_date f = true -> iso_date t = true ->
    parse_date f = Ok s -> parse_date t = Ok e -> s <= e ->
    exists days,
      vacation_days cfg = Ok days /\
      List.length days = Z.to_nat (e - s + 1) /\
      nth_error days 0 = Some f /\
      nth_error days (Z.to_nat (e - s)) = Some t.
Proof.
  intros cfg f t s e Hcfg _ _ Hf Ht Hle.
  exists (map format_date (date_range s e)).
  split.
  { unfold vacation_days, vacation_entry_days. rewrite Hcfg.
    cbn [mapM bind fst snd]. rewrite Hf, Ht. cbn [bind List.concat].
    rewrite app_nil_r. reflexivity. }
  split.
  { unfold date_range. rewrite !length_map, length_seq. reflexivity. }
  split.
  - rewrite nth_error_map, date_range_nth by (cbn; lia). cbn [option_map].
    replace (s + Z.of_nat 0) with s by (cbn; lia).
    rewrite (format_parse_date _ _ Hf). reflexivity.
  - rewrite nth_error_map, date_range_nth by lia. cbn [option_map].
    replace (s + Z.of_nat (Z.to_nat (e - s))) with e by lia.
    rewrite (format_parse_date _ _ Ht). reflexivity.
Qed.

Lemma vacation_days_range_ends_witness :
  exists days,
    vacation_days
      (mkConfig [VacDict (Some "2023-02-27") (Some "2023-03-02")]%string [] [] "DE" "BY" [])
    = Ok days /\
    List.length days = Z.to_nat (19418 - 19415 + 1) /\
    nth_error days 0 = Some "2023-02-27"%string /\
    nth_error days (Z.to_nat (19418 - 19415)) = Some "2023-03-02"%string.
Proof.
  apply (vacation_days_range_ends
           (mkConfig [VacDict (Some "2023-02-27") (Some "2023-03-02")]%string
                     [] [] "DE" "BY" [])
           "2023-02-27" "2023-03-02" 19415 19418).
  - reflexivity.
  - reflexivity.
  - reflexivity.
  - vm_compute. reflexivity.
  - vm_compute. reflexivity.
  - lia.
Defined.

(** The result is the expansions of the entries one after the other, in
    the order of the list: the dates of two vacation lists put together
    are the dates of the first followed by the dates of the second, and a
    day named twice is listed twice. *)
Theorem vacation_days_app :
  forall (cfg cfg1 cfg2 : Config) (ds1 ds2 : list string),
    vacation cfg = (vacation cfg1 ++ vacation cfg2)%list ->
    vacation_days cfg1 = Ok ds1 -> vacation_days cfg2 = Ok ds2 ->
    vacation_days cfg = Ok (ds1 ++ ds2)%list.
Proof.
  intros cfg cfg1 cfg2 ds1 ds2 Hcfg H1 H2. unfold vacation_days in *.
  apply MaskFacts.bind_ok in H1 as [ys1 [Hys1 H1]]. injection H1 as <-.
  apply MaskFacts.bind_ok in H2 as [ys2 [Hys2 H2]]. injection H2 as <-.
  rewrite Hcfg, (mapM_app _ _ _ _ _ Hys1 Hys2). cbn [bind].
  rewrite concat_app. reflexivity.
Qed.

Lemma vacation_days_app_witness :
  vacation_days
    (mkConfig [VacDate "2023-02-05"; VacDate "2023-02-05"]%string [] [] "DE" "BY" [])
  = Ok (["2023-02-05"%string] ++ ["2023-02-05"%string])%list.
Proof.
  apply (vacation_days_app
           (mkConfig [VacDate "2023-02-05"; VacDate "2023-02-05"]%string [] [] "DE" "BY" [])
           (mkConfig [VacDate "2023-02-05"%string] [] [] "DE" "BY" [])
           (mkConfig [VacDate "2023-02-05"%string] [] [] "DE" "BY" [])).
  - reflexivity.
  - vm_compute. reflexivity.
  - vm_compute. reflexivity.
Defined.

End VacationMore.

(** ** More on filter_year and year_mask *)

Module YearMore.
Import Calendar Frame Lib.

Lemma filter_year_filter (tz : Z -> Z) (df : list RawRow) (year : Z)
    (out : list TimedRow) :
  filter_year tz df year = Ok out ->
  exists all,
    out = filter (fun r => year_of (time r) =? year) all /\
    forall r, In r all ->
      In (raw r) df /\ utcoffset_ms (time r) = tz (utc_ms (time r)).
Proof.
  unfold filter_year. intros H.
  apply MaskFacts.bind_ok in H as [nums [_ H]].
  apply MaskFacts.bind_ok in H as [instants [_ H]].
  cbv zeta in H. rewrite MaskFacts.boolean_index_map in H. injection H as <-.
  eexists. split; [reflexivity|].
  intros r Hr. unfold zip_with in Hr.
  apply in_map_iff in Hr as [[x ms] [<- Hin]].
  apply in_combine_l in Hin. split; [exact Hin | reflexivity].
Qed.

(** Every row [filter_year] returns comes from a record of the input,
    carries the Europe/Berlin offset of its instant, and has the requested
    local year; so [year_mask] for that year is true on every row of the
    result and, for any other year, false on every row. *)
Theorem filter_year_year_mask :
  forall (Europe_Berlin : Z -> Z) (df : list RawRow) (year : Z) (out : list TimedRow),
    filter_year Europe_Berlin df year = Ok out ->
    (forall r, In r out ->
       In (raw r) df /\ year_of (time r) = year /\
       utcoffset_ms (time r) = Europe_Berlin (utc_ms (time r))) /\
    year_mask out year = map (fun _ => true) out /\
    (forall year', year' <> year -> year_mask out year' = map (fun _ => false) out).
Proof.
  intros tz df year out H.
  destruct (filter_year_filter tz df year out H) as [all [-> Hall]].
  assert (Hrows : forall r,
             In r (filter (fun r => year_of (time r) =? year) all) ->
             In (raw r) df /\ year_of (time r) = year /\
             utcoffset_ms (time r) = tz (utc_ms (time r))).
  { intros r Hr. apply filter_In in Hr as [Hr Hy]. apply Z.eqb_eq in Hy.
    destruct (Hall r Hr) as [H1 H2]. repeat split; assumption. }
  split; [exact Hrows|]. unfold year_mask. split.
  - apply map_ext_in. intros r Hr. apply Z.eqb_eq. apply (Hrows r Hr).
  - intros year' Hne. apply map_ext_in. intros r Hr. apply Z.eqb_neq.
    destruct (Hrows r Hr) as [_ [Hy _]]. congruence.
Qed.

Lemma filter_year_year_mask_witness :
  year_mask [mkTimed Sample.new_year_eve (mkTimestamp 1672529400000 3600000)] 2023
  = [true] /\
  year_mask [mkTimed Sample.new_year_eve (mkTimestamp 1672529400000 3600000)] 2022
  = [false].
Proof.
  destruct (filter_year_year_mask Sample.cet [Sample.new_year_eve] 2023
              [mkTimed Sample.new_year_eve (mkTimestamp 1672529400000 3600000)])
    as [_ [Htrue Hfalse]].
  - vm_compute. reflexivity.
  - split; [exact Htrue | apply Hfalse; lia].
Defined.

End YearMore.

(** ** The pipeline as a whole *)

Module PipelineMore.
Import Calendar Geo Frame Lib Spec.

(** Whatever [process_lh] returns was let through by every stage: each
    row is the cleaned form of a record whose local year is the requested
    one, passes the four criteria of the filter, and carries the tag of and
    the distance to the first configured area that holds it. *)
Theorem process_lh_rows :
  forall (Europe_Berlin : Z -> Z)
         (holidays : string -> string -> Z -> result (list Z))
         (df : list RawRow) (cfg : Config) (year : Z) (out : list Visited),
    process_lh Europe_Berlin holidays df cfg year = Ok out ->
    exists vac left right hol,
      vacation_days cfg = Ok vac /\
      index (worktimes cfg) 0 = Ok left /\ index (worktimes cfg) 1 = Ok right /\
      bank_holidays holidays cfg year = Ok hol /\
      forall v, In v out ->
        let p := point (located v) in
        In (raw (timed p)) df /\
        p = clean_row (timed p) /\
        year_of (time (timed p)) = year /\
        passes_all vac left right hol (workdays cfg) p = true /\
        in_area (located v) = true /\
        exists a,
          find (within p) (areas cfg) = Some a /\
          area (located v) = Some (tag a) /\
          dist (located v) = Some (dist_to p a).
Proof.
  intros tz holidays df cfg year out H. unfold process_lh in H.
  apply MaskFacts.bind_ok in H as [timed_rows [Hyear H]]. cbv zeta in H.
  apply MaskFacts.bind_ok in H as [m1 [H1 H]].
  apply MaskFacts.bind_ok in H as [m2 [H2 H]].
  apply MaskFacts.bind_ok in H as [m3 [H3 H]].
  apply MaskFacts.bind_ok in H as [m4 [H4 H]].
  apply MaskFacts.bind_ok in H as [kept [Hmasks H]].
  apply MaskFacts.bind_ok in H as [frame [Hassign Hvisit]].
  destruct (MaskFacts.four_masks holidays _ cfg year m1 m2 m3 m4 H1 H2 H3 H4)
    as [vac [left [right [hol [Hvac [Hl [Hr [Hhol Hkept]]]]]]]].
  exists vac, left, right, hol. repeat (split; [assumption|]).
  rewrite Hkept in Hmasks. injection Hmasks as <-.
  assert (Hne : filter (passes_all vac left right hol (workdays cfg))
                  (clean_lhdf timed_rows) <> [])
    by (intros E; rewrite E, AreaFacts.assign_areas_no_rows in Hassign;
        discriminate).
  rewrite (AreaFacts.assign_areas_closed _ cfg Hne) in Hassign.
  injection Hassign as <-.
  intros v Hv. cbv zeta.
  apply In_nth_error in Hv as [i Hi].
  destruct (VisitMore.visit_no_row _ _ _ Hvisit i v Hi) as [Hrow _].
  apply nth_error_In in Hrow. apply filter_In in Hrow as [Hrow Hin_area].
  cbn [frame_by rows] in Hrow. apply in_map_iff in Hrow as [p [Hp Hpin]].
  apply filter_In in Hpin as [Hpin Hpass].
  unfold clean_lhdf in Hpin. apply in_map_iff in Hpin as [t [Ht Htin]].
  destruct (YearMore.filter_year_filter tz df year timed_rows Hyear)
    as [all [-> Hall]].
  apply filter_In in Htin as [Htin Hy]. apply Z.eqb_eq in Hy.
  destruct (Hall t Htin) as [Hraw _].
  assert (Hpoint : point (located v) = p).
  { rewrite <- Hp. unfold located_by. destruct (find _ _); [reflexivity|].
    destruct (rev (areas cfg)); reflexivity. }
  rewrite Hpoint.
  assert (Htimed : timed p = t) by (rewrite <- Ht; reflexivity).
  rewrite Htimed.
  split; [exact Hraw|]. split; [symmetry; exact Ht|]. split; [exact Hy|].
  split; [exact Hpass|]. split; [exact Hin_area|].
  rewrite <- Hp in Hin_area |- *. unfold located_by in *.
  destruct (find (within p) (areas cfg)) as [a |].
  - exists a. repeat split.
  - destruct (rev (areas cfg)); discriminate.
Qed.

Lemma office_day_returns :
  exists out v,
    process_lh Sample.cet Sample.no_holidays Sample.office_raw
      (Sample.base_cfg [Sample.office]) 2023 = Ok out /\
    nth_error out 0 = Some v.
Proof.
  unfold process_lh.
  assert (Hyear : exists timed,
             filter_year Sample.cet Sample.office_raw 2023 = Ok timed /\
             clean_lhdf timed = Sample.office_points)
    by (exists (map (fun r => mkTimed r (to_berlin Sample.cet
                                           (match timestampMs r with
                                            | JInt ms => ms
                                            | JStr _ _ => 0
                                            end)))
                    Sample.office_raw);
        split; vm_compute; reflexivity).
  destruct Hyear as [timed [Hyear Hclean]].
  rewrite Hyear. cbn [bind]. cbv zeta. rewrite Hclean.
  replace (vacation_mask Sample.office_points (Sample.base_cfg [Sample.office]))
    with (Ok [true; true; true; true]) by (vm_compute; reflexivity).
  replace (worktime_mask Sample.office_points (Sample.base_cfg [Sample.office]))
    with (Ok [true; true; true; true]) by (vm_compute; reflexivity).
  replace (bank_holiday_mask Sample.no_holidays Sample.office_points
             (Sample.base_cfg [Sample.office]) 2023)
    with (Ok [true; true; true; true]) by (vm_compute; reflexivity).
  replace (workdays_mask Sample.office_points (Sample.base_cfg [Sample.office]))
    with (Ok [true; true; true; true]) by (vm_compute; reflexivity).
  cbn [bind].
  change (apply_masks Sample.office_points
            [[true; true; true; true]; [true; true; true; true];
             [true; true; true; true]; [true; true; true; true]])
    with (Ok Sample.office_points).
  cbn [bind].
  rewrite AreaFacts.assign_areas_closed
    by (unfold Sample.office_points; discriminate).
  cbn [bind].
  unfold frame_by, Sample.base_cfg, Sample.office_points. cbn [areas map].
  rewrite !(VisitFacts.located_by_north Sample.office 40)
    by (try AreaFacts.at_origin; cbn; lra).
  eexists. eexists. split; [rewrite VisitFacts.visit_no_scan; reflexivity|].
  reflexivity.
Qed.

Lemma process_lh_rows_witness :
  exists out v a,
    process_lh Sample.cet Sample.no_holidays Sample.office_raw
      (Sample.base_cfg [Sample.office]) 2023 = Ok out /\
    nth_error out 0 = Some v /\
    In (raw (timed (point (located v)))) Sample.office_raw /\
    year_of (time (timed (point (located v)))) = 2023 /\
    in_area (located v) = true /\
    find (within (point (located v))) [Sample.office] = Some a /\
    area (located v) = Some (tag a).
Proof.
  destruct office_day_returns as [out [v [Hout Hv]]].
  destruct (process_lh_rows Sample.cet Sample.no_holidays Sample.office_raw
              (Sample.base_cfg [Sample.office]) 2023 out Hout)
    as [vac [left [right [hol [_ [_ [_ [_ Hrows]]]]]]]].
  destruct (Hrows v (nth_error_In out 0 Hv))
    as [Hraw [_ [Hy [_ [Hin [a [Hfind [Harea _]]]]]]]].
  exists out, v, a. repeat split; assumption.
Defined.

(** With no area configured [process_lh] never returns a frame: when the
    stages before it succeed, [assign_areas] raises ValueError on a frame
    left with no rows and [visit_no] raises AttributeError otherwise. *)
Theorem process_lh_zero_areas :
  forall (Europe_Berlin : Z -> Z)
         (holidays : string -> string -> Z -> result (list Z))
         (df : list RawRow) (cfg : Config) (year : Z),
    areas cfg = [] ->
    exists e, process_lh Europe_Berlin holidays df cfg year = Err e.
Proof.
  intros tz holidays df cfg year Hcfg. unfold process_lh.
  destruct (filter_year tz df year) as [rows |]; [|eexists; reflexivity].
  cbn [bind]. cbv zeta.
  destruct (vacation_mask _ cfg) as [m1 |]; [|eexists; reflexivity]. cbn [bind].
  destruct (worktime_mask _ cfg) as [m2 |]; [|eexists; reflexivity]. cbn [bind].
  destruct (bank_holiday_mask holidays _ cfg year) as [m3 |]; [|eexists; reflexivity].
  cbn [bind].
  destruct (workdays_mask _ cfg) as [m4 |]; [|eexists; reflexivity]. cbn [bind].
  destruct (apply_masks _ _) as [kept |]; [|eexists; reflexivity]. cbn [bind].
  destruct kept as [| p kept]; [exists ValueError; reflexivity|].
  rewrite AreaFacts.assign_areas_closed by discriminate.
  rewrite Hcfg. cbn [bind].
  exists AttributeError. reflexivity.
Qed.

Lemma process_lh_zero_areas_witness :
  exists e,
    process_lh Sample.cet Sample.no_holidays Sample.office_raw (Sample.base_cfg []) 2023
    = Err e.
Proof.
  apply (process_lh_zero_areas Sample.cet Sample.no_holidays Sample.office_raw
           (Sample.base_cfg []) 2023).
  reflexivity.
Defined.

End PipelineMore.
